(** * odha-chat: slot filling and dialogue routing of [app.py]

    A shallow embedding of the extraction and routing core of the chat
    front-end, and the properties of its specification checked against it.

    Python [str] values are sequences of Unicode code points; they are
    modelled as [list N].  Everything the program obtains from outside
    (the language model, the two HTTP services, the clock, the prompt file)
    and the one large runtime table that is not reproduced here
    ([str.lower]) are fields of a [World] record over which every theorem
    quantifies. *)

From Stdlib Require Import Ascii String.
From Stdlib Require Import List NArith ZArith Bool Lia.
Import ListNotations.

Local Open Scope N_scope.
Local Open Scope list_scope.

(** ** Python strings *)

Module Py.

Definition str := list N.

(** UTF-8 decoding, used only to write the literals of the source file
    legibly: [u "..."] is the code-point sequence of the Python literal. *)
Fixpoint utf8 (bs : list N) (need : nat) (acc : N) : str :=
  match bs with
  | [] => []
  | b :: bs' =>
      match need with
      | O =>
          if b <? 128 then b :: utf8 bs' 0 0
          else if b <? 224 then utf8 bs' 1 (b - 192)
          else if b <? 240 then utf8 bs' 2 (b - 224)
          else utf8 bs' 3 (b - 240)
      | S n =>
          let acc' := acc * 64 + (b - 128) in
          match n with
          | O => acc' :: utf8 bs' 0 0
          | S _ => utf8 bs' n acc'
          end
      end
  end.

Definition u (s : string) : str :=
  utf8 (List.map N_of_ascii (list_ascii_of_string s)) 0 0.

Fixpoint str_eqb (a b : str) : bool :=
  match a, b with
  | [], [] => true
  | x :: a', y :: b' => (x =? y) && str_eqb a' b'
  | _, _ => false
  end.

(** [drop_prefix p s] is [Some rest] when [s = p ++ rest]
    ([s.startswith(p)]). *)
Fixpoint drop_prefix (p s : str) : option str :=
  match p with
  | [] => Some s
  | x :: p' =>
      match s with
      | [] => None
      | y :: s' => if x =? y then drop_prefix p' s' else None
      end
  end.

(** [p in s] for strings: substring test. *)
Fixpoint py_in (p s : str) : bool :=
  match drop_prefix p s with
  | Some _ => true
  | None =>
      match s with
      | [] => false
      | _ :: s' => py_in p s'
      end
  end.

(** Code points for which [str.isspace] holds; the same set is matched by
    [\s] in a str pattern and removed by [str.strip()]. *)
Definition is_space (c : N) : bool :=
  ((9 <=? c) && (c <=? 13)) || ((28 <=? c) && (c <=? 32))
  || (c =? 133) || (c =? 160) || (c =? 5760)
  || ((8192 <=? c) && (c <=? 8202))
  || (c =? 8232) || (c =? 8233) || (c =? 8239) || (c =? 8287)
  || (c =? 12288).

(** The zero digits of the decimal-digit blocks of Unicode (general
    category Nd, Unicode 14 as shipped with CPython 3.11): every decimal
    digit lies in a run of ten consecutive code points starting at one of
    these.  [\d] matches exactly these characters and [int] reads them. *)
Definition nd_zeros : list N :=
  [48; 1632; 1776; 1984; 2406; 2534; 2662; 2790; 2918; 3046; 3174; 3302;
   3430; 3558; 3664; 3792; 3872; 4160; 4240; 6112; 6160; 6470; 6608; 6784;
   6800; 6992; 7088; 7232; 7248; 42528; 43216; 43264; 43472; 43504; 43600;
   44016; 65296; 66720; 68912; 69734; 69872; 69942; 70096; 70384; 70736;
   70864; 71248; 71360; 71472; 71904; 72016; 72784; 73040; 73120; 92768;
   92864; 93008; 120782; 120792; 120802; 120812; 120822; 123200; 123632;
   125264; 130032].

Fixpoint decimal_in (zs : list N) (c : N) : option N :=
  match zs with
  | [] => None
  | z :: zs' =>
      if (z <=? c) && (c <? z + 10) then Some (c - z) else decimal_in zs' c
  end.

Definition decimal_value (c : N) : option N := decimal_in nd_zeros c.

Definition is_decimal (c : N) : bool :=
  match decimal_value c with Some _ => true | None => false end.

Definition is_ascii_digit (c : N) : bool := (48 <=? c) && (c <=? 57).

Fixpoint drop_while (f : N -> bool) (s : str) : str :=
  match s with
  | [] => []
  | c :: s' => if f c then drop_while f s' else s
  end.

Definition lstrip (s : str) : str := drop_while is_space s.
Definition rstrip (s : str) : str := rev (drop_while is_space (rev s)).

(** [s.strip()] *)
Definition strip (s : str) : str := rstrip (lstrip s).

(** [sep.join(parts)] *)
Fixpoint join (sep : str) (parts : list str) : str :=
  match parts with
  | [] => []
  | [p] => p
  | p :: ps => p ++ sep ++ join sep ps
  end.

(** [int(s)] for a text of decimal digits; [None] stands for the
    [ValueError] of any other text.  (Python also accepts a sign,
    surrounding blanks and underscores; a [\d] group has none of them.) *)
Fixpoint int_digits (s : str) (acc : N) : option N :=
  match s with
  | [] => Some acc
  | c :: s' =>
      match decimal_value c with
      | Some v => int_digits s' (10 * acc + v)
      | None => None
      end
  end.

Definition int (s : str) : option N :=
  match s with
  | [] => None
  | _ :: _ => int_digits s 0
  end.

(** [str(n)] for a non-negative integer. *)
Fixpoint digits_of (fuel : nat) (n : N) (acc : str) : str :=
  match fuel with
  | O => acc
  | S fuel' =>
      let acc' := (48 + n mod 10) :: acc in
      if n <? 10 then acc' else digits_of fuel' (n / 10) acc'
  end.

Definition str_of_int (n : N) : str :=
  digits_of (S (N.to_nat (N.log2 n))) n [].

(** [f"{n:02d}"] for a non-negative integer. *)
Definition fmt02 (n : N) : str :=
  let ds := str_of_int n in
  if Nat.ltb (length ds) 2 then 48 :: ds else ds.

(** Truthiness of an optional string: [None] and [""] are falsy. *)
Definition truthy (o : option str) : bool :=
  match o with
  | Some (_ :: _) => true
  | _ => false
  end.

(** *** dict with string keys and string values

    Insertion ordered, as Python's: assigning an existing key keeps its
    position, a new key goes last. *)
Definition dict := list (str * str).

Fixpoint dict_get (k : str) (d : dict) : option str :=
  match d with
  | [] => None
  | (k', v) :: d' => if str_eqb k k' then Some v else dict_get k d'
  end.

Definition dict_mem (k : str) (d : dict) : bool :=
  match dict_get k d with Some _ => true | None => false end.

Fixpoint dict_set (k v : str) (d : dict) : dict :=
  match d with
  | [] => [(k, v)]
  | (k', v') :: d' =>
      if str_eqb k k' then (k, v) :: d' else (k', v') :: dict_set k v d'
  end.

(** [d.get(k, default)] *)
Definition dict_get_default (k : str) (default : str) (d : dict) : str :=
  match dict_get k d with Some v => v | None => default end.

(** Decoded JSON documents, as far as the geocoding reply is inspected.
    A number carries no value: only its kind matters below. *)
#[local] Set Warnings "-register-all".
Inductive json :=
| JNull
| JBool (b : bool)
| JNumber (zero : bool)
| JString (s : str)
| JArray (items : list json)
| JObject (members : list (str * json)).

(** [bool(v)] *)
Definition json_truthy (v : json) : bool :=
  match v with
  | JNull => false
  | JBool b => b
  | JNumber zero => negb zero
  | JString s => match s with [] => false | _ => true end
  | JArray items => match items with [] => false | _ => true end
  | JObject members => match members with [] => false | _ => true end
  end.

(** [v[0]]; [None] is the exception raised (IndexError, KeyError or
    TypeError).  An object decoded from JSON has string keys only. *)
Definition json_first (v : json) : option json :=
  match v with
  | JArray (x :: _) => Some x
  | JString (c :: _) => Some (JString [c])
  | _ => None
  end.

Fixpoint members_get (k : str) (ms : list (str * json)) : option json :=
  match ms with
  | [] => None
  | (k', v) :: ms' => if str_eqb k k' then Some v else members_get k ms'
  end.

(** [v[k]] for a string key [k]; [None] is the exception raised. *)
Definition json_item (k : str) (v : json) : option json :=
  match v with
  | JObject members => members_get k members
  | _ => None
  end.

End Py.

Import Py.

(** ** Backtracking regular expressions

    The fragment of Python's [re] that the three patterns of the program
    use: literals, greedy quantified character classes, concatenation,
    alternation, greedy optional parts and capture groups, with [re]'s
    search order (leftmost start, then the first alternative that lets the
    rest of the pattern succeed). *)

Module Re.

Inductive regex :=
| Eps
| Lit (l : str)
| Rep (cls : N -> bool) (lo : nat) (hi : option nat)
| Seq (r1 r2 : regex)
| Alt (r1 r2 : regex)
| Opt (r : regex)
| Grp (n : nat) (r : regex).

(** Captured groups, most recent first. *)
Definition groups := list (nat * str).

Fixpoint group (n : nat) (g : groups) : option str :=
  match g with
  | [] => None
  | (m, v) :: g' => if Nat.eqb n m then Some v else group n g'
  end.

(** Length of the longest prefix of [s] in class [cls], at most [hi]. *)
Fixpoint run (cls : N -> bool) (hi : option nat) (s : str) : nat :=
  match s with
  | [] => O
  | c :: s' =>
      if cls c then
        match hi with
        | Some O => O
        | Some (S h) => S (run cls (Some h) s')
        | None => S (run cls None s')
        end
      else O
  end.

(** Greedy choice of a repetition count: [n], then [n - 1], ... down to
    [lo]; the first count for which the continuation succeeds is kept. *)
Fixpoint backoff {A : Type} (f : nat -> option A) (lo n : nat) : option A :=
  if Nat.ltb n lo then None
  else
    match f n with
    | Some x => Some x
    | None =>
        match n with
        | O => None
        | S n' => backoff f lo n'
        end
    end.

Fixpoint rmatch {A : Type} (r : regex) (s : str) (g : groups)
    (k : str -> groups -> option A) : option A :=
  match r with
  | Eps => k s g
  | Lit l =>
      match drop_prefix l s with
      | Some s' => k s' g
      | None => None
      end
  | Rep cls lo hi => backoff (fun j => k (skipn j s) g) lo (run cls hi s)
  | Seq r1 r2 => rmatch r1 s g (fun s' g' => rmatch r2 s' g' k)
  | Alt r1 r2 =>
      match rmatch r1 s g k with
      | Some x => Some x
      | None => rmatch r2 s g k
      end
  | Opt r1 =>
      match rmatch r1 s g k with
      | Some x => Some x
      | None => k s g
      end
  | Grp n r1 =>
      rmatch r1 s g
        (fun s' g' => k s' ((n, firstn (length s - length s') s) :: g'))
  end.

(** [re.match(r, s)]: the groups of a match starting at the head of [s]. *)
Definition match_here (r : regex) (s : str) : option groups :=
  rmatch r s [] (fun _ g => Some g).

(** [re.search(r, s)]: the groups of the leftmost match. *)
Fixpoint search (r : regex) (s : str) : option groups :=
  match match_here r s with
  | Some g => Some g
  | None =>
      match s with
      | [] => None
      | _ :: s' => search r s'
      end
  end.

Fixpoint cat (rs : list regex) : regex :=
  match rs with
  | [] => Eps
  | [r] => r
  | r :: rs' => Seq r (cat rs')
  end.

Definition one_of (cs : str) (c : N) : bool := existsb (N.eqb c) cs.

End Re.

Import Re.

(** Error-propagating sequencing: [None] is a raised exception. *)
Notation "'let?' x ':=' e 'in' k" :=
  (match e with Some x => k | None => None end)
  (at level 10, x name, e at level 100, k at level 200, only parsing).

(** ** The world outside the program *)

Inductive chat_msg :=
| SystemMessage (content : str)
| HumanMessage (content : str).

(** Outcome of [requests.get(...)] followed by [res.json()]. *)
Inductive http_json :=
| HttpRaises
| HttpJson (data : json).

(** Outcome of the POST to the astrology service: the body text, a
    [requests.exceptions.RequestException] with its message, or any other
    exception. *)
Inductive api_reply :=
| ApiText (text : str)
| ApiRequestException (msg : str)
| ApiOtherException.

(** Outcome of [llm.invoke]: the content of the reply, or an exception
    with its message. *)
Inductive llm_reply :=
| LlmContent (content : str)
| LlmException (msg : str).

Record World := {
  (** [str.lower] *)
  py_lower : str -> str;
  (** text of a JSON value that is not a string, as an f-string shows it *)
  json_text : json -> str;
  (** the geocoding service, by query *)
  nominatim : str -> http_json;
  (** the astrology service, by payload *)
  astro_post : dict -> api_reply;
  (** the language model, by message list *)
  llm_invoke : list chat_msg -> llm_reply;
  (** [(datetime.now() + timedelta(days=n)).strftime("%Y-%m-%dT%H:%M:%S+09:00")] *)
  clock_iso : Z -> str;
  (** [datetime.now().weekday()] *)
  clock_weekday : Z;
  (** [datetime.now().strftime("%Y년 %m월 %d일 %H시 %M분")] *)
  clock_kst : str;
  (** the prompt file read and formatted with [now_kst]; [None] when
      opening, reading or formatting raises *)
  prompt_file : str -> option str
}.

(** What a turn does that is visible outside. *)
Inductive printed :=
| PInt (n : nat)
| PMsg (m : chat_msg)
| PStr (s : str).

Inductive event :=
| Send (content : str)
| LlmInvoke (msgs : list chat_msg)
| HttpGet (q : str)
| HttpPost (payload : dict)
| Print (label : str) (value : printed).

(** ** The program *)

Definition nl : str := [10].

Definition rasi_analysis_prompt : str := u "
라시차트 분석 시 다음 항목들을 포함해 정리해줘:

1. **각 행성의 하우스 위치, 별자리(Rasi), 세기(Strength)**  
2. **각 행성의 낙샤트라(Nakshatra)와 그 지배 행성 상태**  
3. **각 하우스별 의미 및 해당 하우스에 위치한 행성의 성격 분석**  
4. **하우스 세기(강/약), 빈 하우스에 대한 영향 해석**  
5. **케마드루마 요가, 니차/우차 상태, 점프라 요가 등 주요 요가 존재 여부**  
6. **라그나(Ascendant)의 위치와 전체 차트에서의 역할**  
7. **종합 해석: 주요 성격 경향, 삶의 기본 성향, 강점과 약점 요약**
".

Definition KNOWN_PLACES : list str :=
  [u "서울"; u "부산"; u "대구"; u "인천"; u "광주"; u "대전"; u "울산"; u "세종";
   u "경기"; u "강원"; u "충북"; u "충남"; u "전북"; u "전남"; u "경북"; u "경남"; u "제주";
   u "김해"; u "수원"; u "창원"; u "전주"; u "포항"].

Definition load_system_prompt (w : World) (now_kst : str) : str :=
  match prompt_file w now_kst with
  | Some text => text
  | None => u "지금은 " ++ now_kst ++ u "입니다."
  end.

Definition resolve_gochra_datetime (w : World) (text : str) : str :=
  let text := py_lower w text in
  if py_in (u "오늘") text then clock_iso w 0
  else if py_in (u "내일") text then clock_iso w 1
  else if py_in (u "모레") text then clock_iso w 2
  else if py_in (u "금요일") text then
    let weekday := clock_weekday w in
    let days_ahead := ((4 - weekday) mod 7)%Z in
    clock_iso w days_ahead
  else clock_iso w 0.

Definition is_general_mode_request (text : str) : bool :=
  py_in (u "일반으로") text || py_in (u "api 없이") text
  || py_in (u "대화만") text.

Definition fallback_coordinates : str := u "35.2721355,128.8452281".

Definition format_json (w : World) (v : json) : str :=
  match v with
  | JString s => s
  | _ => json_text w v
  end.

(** The body of the [try] of [get_coordinates] once the reply is decoded:
    [Some None] when [data] is falsy, [None] when indexing raises. *)
Definition first_result (w : World) (data : json) : option (option str) :=
  if json_truthy data then
    let? r := json_first data in
    let? lat := json_item (u "lat") r in
    let? r' := json_first data in
    let? lon := json_item (u "lon") r' in
    Some (Some (format_json w lat ++ u "," ++ format_json w lon))
  else Some None.

Definition get_coordinates (w : World) (place : str) : str :=
  match nominatim w place with
  | HttpRaises => fallback_coordinates
  | HttpJson data =>
      match first_result w data with
      | Some (Some coordinates) => coordinates
      | Some None => fallback_coordinates
      | None => fallback_coordinates
      end
  end.

Definition extract_gender (w : World) (text : str) : option str :=
  let text := py_lower w text in
  if existsb (fun word => py_in word text)
       [u "남성"; u "남자"; u "남"; u "man"; u "male"; u "boy"]
  then Some (u "남성")
  else if existsb (fun word => py_in word text)
       [u "여성"; u "여자"; u "여"; u "woman"; u "female"; u "girl"]
  then Some (u "여성")
  else None.

(** [[가-힣a-zA-Z]] *)
Definition hangul_or_latin (c : N) : bool :=
  ((44032 <=? c) && (c <=? 55203)) || ((97 <=? c) && (c <=? 122))
  || ((65 <=? c) && (c <=? 90)).

(** [([가-힣a-zA-Z]+)[\s]*(에서|출생|태어났|태어난)] *)
Definition place_re : regex :=
  cat [Grp 1 (Rep hangul_or_latin 1 None);
       Rep is_space 0 None;
       Grp 2 (Alt (Lit (u "에서")) (Alt (Lit (u "출생"))
                (Alt (Lit (u "태어났")) (Lit (u "태어난")))))].

Definition extract_place (text : str) : option str :=
  match search place_re text with
  | Some m => group 1 m
  | None => find (fun place => py_in place text) KNOWN_PLACES
  end.

(** [(\d{4})[년\-/. ]+(\d{1,2})[월\-/. ]+(\d{1,2})[일\s]*] *)
Definition date_re : regex :=
  cat [Grp 1 (Rep is_decimal 4 (Some 4%nat));
       Rep (one_of (u "년-/. ")) 1 None;
       Grp 2 (Rep is_decimal 1 (Some 2%nat));
       Rep (one_of (u "월-/. ")) 1 None;
       Grp 3 (Rep is_decimal 1 (Some 2%nat));
       Rep (fun c => one_of (u "일") c || is_space c) 0 None].

(** [(오전|오후)?\s*(\d{1,2})시(?:\s*(\d{1,2})분)?] *)
Definition time_re : regex :=
  cat [Opt (Grp 1 (Alt (Lit (u "오전")) (Lit (u "오후"))));
       Rep is_space 0 None;
       Grp 2 (Rep is_decimal 1 (Some 2%nat));
       Lit (u "시");
       Opt (cat [Rep is_space 0 None;
                 Grp 3 (Rep is_decimal 1 (Some 2%nat));
                 Lit (u "분")])].

Definition opt_eqb (o : option str) (s : str) : bool :=
  match o with
  | Some x => str_eqb x s
  | None => false
  end.

(** The [if date_match:] block: the text stored under [datetime].  A group
    that took part in a match is a string; [None] below is the exception
    raised by [int]. *)
Definition datetime_text (date_match : groups) (time_match : option groups)
    : option str :=
  let? y := group 1 date_match in
  let? m := group 2 date_match in
  let? d := group 3 date_match in
  let? hm :=
    match time_match with
    | Some tm =>
        let ampm := group 1 tm in
        let? h := group 2 tm in
        let mm := group 3 tm in
        let? hour :=
          if opt_eqb ampm (u "오후") then
            let? hv := int h in
            Some (if hv <? 12 then str_of_int (hv + 12) else h)
          else Some h in
        let minute := if truthy mm then mm else Some (u "00") in
        let? minute := minute in
        Some (hour, minute)
    | None => Some (u "12", u "00")
    end in
  let? mv := int m in
  let? dv := int d in
  let? hv := int (fst hm) in
  let? nv := int (snd hm) in
  Some (y ++ u "-" ++ fmt02 mv ++ u "-" ++ fmt02 dv ++ u "T"
          ++ fmt02 hv ++ u ":" ++ fmt02 nv ++ u ":00+09:00").

Definition parse_and_store_user_info (w : World) (user_input : str)
    (session : dict) : option dict :=
  let result := session in
  let date_match := search date_re user_input in
  let time_match := search time_re user_input in
  let? result :=
    match date_match with
    | Some dm =>
        let? text := datetime_text dm time_match in
        Some (dict_set (u "datetime") text result)
    | None => Some result
    end in
  let place := extract_place user_input in
  let result :=
    if truthy place then
      match place with
      | Some place =>
          let result := dict_set (u "place") place result in
          dict_set (u "coordinates") (get_coordinates w place) result
      | None => result
      end
    else result in
  let gender := extract_gender w user_input in
  let result :=
    if truthy gender then
      match gender with
      | Some gender => dict_set (u "usergender") gender result
      | None => result
      end
    else result in
  let result :=
    dict_set (u "birthdaytype")
      (if py_in (u "음력") user_input then u "음력"
       else dict_get_default (u "birthdaytype") (u "양력") result)
      result in
  let result :=
    dict_set (u "gochradatetime") (resolve_gochra_datetime w user_input)
      result in
  Some result.

(** The HTTP request made while parsing: one geocoding lookup when a place
    was extracted. *)
Definition parse_trace (user_input : str) : list event :=
  match extract_place user_input with
  | Some (c :: place) => [HttpGet (c :: place)]
  | _ => []
  end.

Definition required : list str :=
  [u "datetime"; u "place"; u "coordinates"; u "usergender"].

Definition questions : dict :=
  [(u "datetime", u "⏰ 태어난 날짜와 시간을 알려주세요.");
   (u "place", u "📍 태어난 지역을 알려주세요.");
   (u "coordinates", u "🌐 출생지 정보를 더 정확히 알려주세요.");
   (u "usergender", u "👤 성별을 알려주세요. (남성/여성)")].

(** [[questions[m] for m in missing]]; [None] is a [KeyError]. *)
Fixpoint lookup_all (d : dict) (ks : list str) : option (list str) :=
  match ks with
  | [] => Some []
  | k :: ks' =>
      let? v := dict_get k d in
      let? vs := lookup_all d ks' in
      Some (v :: vs)
  end.

Definition check_missing_fields (payload : dict) : option (list str) :=
  let missing := filter (fun k => negb (dict_mem k payload)) required in
  lookup_all questions missing.

Definition call_astrology_api (w : World) (payload : dict) : option str :=
  match astro_post w payload with
  | ApiText text => Some text
  | ApiRequestException e => Some (u "[API 요청 실패]: " ++ e)
  | ApiOtherException => None
  end.

Definition astrology_keywords : list str :=
  [u "운세"; u "오늘"; u "점성"; u "궁합"; u "차트"; u "별자리"; u "행성"; u "출생";
   u "사주"; u "궁도"; u "분석해 줘"; u "분석해주세요"; u "알려줘"; u "천문도"; u "라시";
   u "점성학"; u "추천"].

Definition is_astrology_query (w : World) (text : str) : bool :=
  existsb (fun k => py_in k (py_lower w text)) astrology_keywords.

Definition is_rasi_analysis_request (w : World) (text : str) : bool :=
  existsb (fun k => py_in k (py_lower w text))
    [u "라시차트"; u "천문도"; u "라그나"; u "차트를 분석"].

Definition is_short_response (text : str) : bool :=
  Nat.ltb (length (strip text)) 10.

Definition truncate_text (text : str) (max_chars : nat) : str :=
  if Nat.leb (length text) max_chars then text
  else firstn max_chars text ++ u "...".

(** [range(0, stop, step)] for a positive [step]. *)
Fixpoint range_from (fuel start stop step : nat) : list nat :=
  match fuel with
  | O => []
  | S fuel' =>
      if Nat.ltb start stop
      then start :: range_from fuel' (start + step) stop step
      else []
  end.

Definition range_step (stop step : nat) : list nat :=
  range_from stop 0 stop step.

(** [s[i:j]] for [0 <= i <= j]. *)
Definition slice (i j : nat) (s : str) : str := firstn (j - i) (skipn i s).

(** The messages [render_fortune_markdown] sends, each with its author and
    content; [None] is the [ValueError] of a zero step.  A negative
    [chunk_size] gives an empty range. *)
Definition render_fortune_markdown (text : str) (chunk_size : Z)
    : option (list (str * str)) :=
  let text := strip text in
  match text with
  | [] => Some []
  | _ :: _ =>
      if (chunk_size =? 0)%Z then None
      else if (chunk_size <? 0)%Z then Some []
      else
        let n := Z.to_nat chunk_size in
        let chunks :=
          map (fun i => slice i (i + n) text) (range_step (length text) n) in
        Some (map (fun chunk => (u "운세봇", strip chunk)) chunks)
  end.

(** A turn, or a part of one: what it emitted and whether it ended by an
    exception that nothing caught. *)
Record effects := {
  trace : list event;
  raised : bool
}.

Definition proceed_with_astrology (w : World) (payload : dict)
    (user_input : str) : effects :=
  let now_kst := clock_kst w in
  let system_prompt := SystemMessage (load_system_prompt w now_kst) in
  match call_astrology_api w payload with
  | None => {| trace := [HttpPost payload]; raised := true |}
  | Some api_result =>
      let prompt :=
        if is_rasi_analysis_request w user_input then
          let short_result := truncate_text api_result 1500 in
          u "사용자 질문: " ++ user_input ++ nl ++ nl ++ u "출생 차트:" ++ nl
            ++ short_result ++ nl ++ nl ++ rasi_analysis_prompt
        else
          let short_result := truncate_text api_result 1000 in
          (u "사용자 질문: " ++ user_input ++ nl ++ nl)
            ++ (u "출생 차트 분석 결과:" ++ nl ++ short_result ++ nl ++ nl)
            ++ (u "🔮 아래 형식에 따라 오늘의 운세를 통변해 주세요..." ++ nl) in
      let msgs := [system_prompt; HumanMessage prompt] in
      let before :=
        [HttpPost payload;
         Print (u "1. 프롬프트 길이:") (PInt (length prompt));
         Print (u "2. system_prompt:") (PMsg system_prompt);
         Print (u "3. prompt:") (PStr prompt);
         LlmInvoke msgs] in
      match llm_invoke w msgs with
      | LlmContent content =>
          {| trace := before ++ [Print (u "4. response:") (PStr content)];
             raised := false |}
      | LlmException e =>
          {| trace :=
               before ++ [Send (u "⚠️ LLM 응답 중 오류가 발생했습니다: " ++ e)];
             raised := false |}
      end
  end.

(** The per-conversation store of the chat framework, with the three keys
    the program uses; an unset [general_mode] reads as [False]. *)
Record user_session := {
  user_info : dict;
  pending_fields : list str;
  general_mode : bool
}.

Definition set_user_info (v : dict) (s : user_session) : user_session :=
  {| user_info := v; pending_fields := pending_fields s;
     general_mode := general_mode s |}.

Definition set_pending_fields (v : list str) (s : user_session)
    : user_session :=
  {| user_info := user_info s; pending_fields := v;
     general_mode := general_mode s |}.

Definition set_general_mode (v : bool) (s : user_session) : user_session :=
  {| user_info := user_info s; pending_fields := pending_fields s;
     general_mode := v |}.

(** The store of a conversation that has just been opened. *)
Definition new_session : user_session :=
  {| user_info := []; pending_fields := []; general_mode := false |}.

Definition greeting : str :=
  u "🌟 안녕하세요! 생년월일, 출생시간, 출생지를 입력하시면 운세를 알려드릴게요. 다음처럼 질문해 주세요. 예)1976년 4월 27일 14시 서울에서 출생한 여자 현숙이의 라시차트를 분석해 줘".

Definition start_chat (s : user_session) : user_session * effects :=
  (set_pending_fields [] (set_user_info [] s),
   {| trace := [Send greeting]; raised := false |}).

Definition general_mode_notice : str :=
  u "💬 이제부터는 일반 대화 모드입니다. API는 호출하지 않아요!".

Definition dump_line (kv : str * str) : str := fst kv ++ u ": " ++ snd kv.

Definition uncaught (s : user_session) (t : list event)
    : user_session * effects :=
  (s, {| trace := t; raised := true |}).

Definition done (s : user_session) (t : list event)
    : user_session * effects :=
  (s, {| trace := t; raised := false |}).

Definition and_then (s : user_session) (t : list event) (e : effects)
    : user_session * effects :=
  (s, {| trace := t ++ trace e; raised := raised e |}).

Definition handle (w : World) (content : str) (s : user_session)
    : user_session * effects :=
  let user_input := strip content in
  let session := user_info s in
  let pending := pending_fields s in
  if is_general_mode_request user_input then
    done (set_general_mode true s) [Send general_mode_notice]
  else if general_mode s then
    let msgs := [HumanMessage user_input] in
    match llm_invoke w msgs with
    | LlmContent response => done s [LlmInvoke msgs; Send response]
    | LlmException _ => uncaught s [LlmInvoke msgs]
    end
  else if py_in (u "기억된 정보") user_input
          || py_in (u "기억한 출생 정보") user_input then
    match session with
    | [] => done s [Send (u "⚠️ 아직 입력된 출생 정보가 없습니다.")]
    | _ :: _ =>
        let info := join nl (map dump_line session) in
        done s [Send (u "🧠 현재 기억된 출생 정보는 다음과 같아요:" ++ nl ++ info)]
    end
  else if is_short_response user_input
          && match pending with [] => false | _ :: _ => true end then
    match parse_and_store_user_info w user_input session with
    | None => uncaught s []
    | Some updated =>
        let s := set_user_info updated s in
        let s := set_pending_fields [] s in
        match check_missing_fields updated with
        | None => uncaught s (parse_trace user_input)
        | Some (q :: qs) =>
            done (set_pending_fields (q :: qs) s)
              (parse_trace user_input ++ [Send (join nl (q :: qs))])
        | Some [] =>
            and_then s (parse_trace user_input)
              (proceed_with_astrology w updated user_input)
        end
    end
  else if negb (is_astrology_query w user_input)
          && negb (is_rasi_analysis_request w user_input) then
    let now_kst := clock_kst w in
    let system_message :=
      SystemMessage
        (u "지금은 " ++ now_kst
           ++ u "입니다. 이 시간 정보를 참고해서 질문에 정확하게 대답해 주세요.") in
    let msgs := [system_message; HumanMessage user_input] in
    match llm_invoke w msgs with
    | LlmContent response => done s [LlmInvoke msgs; Send response]
    | LlmException _ => uncaught s [LlmInvoke msgs]
    end
  else
    match parse_and_store_user_info w user_input session with
    | None => uncaught s []
    | Some updated =>
        let s := set_user_info updated s in
        match check_missing_fields updated with
        | None => uncaught s (parse_trace user_input)
        | Some (q :: qs) =>
            done (set_pending_fields (q :: qs) s)
              (parse_trace user_input ++ [Send (join nl (q :: qs))])
        | Some [] =>
            and_then (set_pending_fields [] s) (parse_trace user_input)
              (proceed_with_astrology w updated user_input)
        end
    end.

(** A conversation: the store after [start_chat] and a sequence of turns,
    each in its own world. *)
Definition opened : user_session := fst (start_chat new_session).

Fixpoint converse (turns : list (World * str)) (s : user_session)
    : user_session :=
  match turns with
  | [] => s
  | (w, content) :: turns' => converse turns' (fst (handle w content s))
  end.

(** ** Notions used to state the properties *)

(** [a] is matched by [r] as a whole, taking the groups from [g] to [g']:
    the declarative reading of a pattern, against which the backtracking
    matcher is shown sound. *)
Inductive matches : regex -> str -> groups -> groups -> Prop :=
| m_eps g : matches Eps [] g g
| m_lit l g : matches (Lit l) l g g
| m_rep cls lo hi a g :
    forallb cls a = true ->
    (lo <= length a)%nat ->
    match hi with Some h => (length a <= h)%nat | None => True end ->
    matches (Rep cls lo hi) a g g
| m_seq r1 r2 a b g g1 g2 :
    matches r1 a g g1 -> matches r2 b g1 g2 ->
    matches (Seq r1 r2) (a ++ b) g g2
| m_alt_l r1 r2 a g g' : matches r1 a g g' -> matches (Alt r1 r2) a g g'
| m_alt_r r1 r2 a g g' : matches r2 a g g' -> matches (Alt r1 r2) a g g'
| m_opt_some r a g g' : matches r a g g' -> matches (Opt r) a g g'
| m_opt_none r g : matches (Opt r) [] g g
| m_grp n r a g g' :
    matches r a g g' -> matches (Grp n r) a g ((n, a) :: g').

(** A text of between [lo] and [hi] decimal digits. *)
Definition digits (lo hi : nat) (s : str) : Prop :=
  forallb is_decimal s = true /\ (lo <= length s <= hi)%nat.

(** The next character, if any, is outside the class. *)
Definition stops (cls : N -> bool) (s : str) : bool :=
  match s with
  | [] => true
  | c :: _ => negb (cls c)
  end.

(** The text committed for a year text and four numbers. *)
Definition iso_text (y : str) (month day hour minute : N) : str :=
  y ++ u "-" ++ fmt02 month ++ u "-" ++ fmt02 day ++ u "T"
    ++ fmt02 hour ++ u ":" ++ fmt02 minute ++ u ":00+09:00".

(** The hour committed for a captured marker and a parsed hour. *)
Definition committed_hour (ampm : option str) (h : N) : N :=
  if opt_eqb ampm (u "오후") && (h <? 12) then h + 12 else h.

(** The fields of a text laid out as [YYYY-MM-DDTHH:MM:00+09:00]. *)
Definition kst_fields (v : str)
    : option (str * (N * N) * (N * N) * (N * N) * (N * N)) :=
  match v with
  | [y1; y2; y3; y4; s1; m1; m2; s2; d1; d2; t; h1; h2; c1; n1; n2;
     c2; z1; z2; p; o1; o2; c3; o3; o4] =>
      if str_eqb [s1; s2; t; c1; c2; z1; z2; p; o1; o2; c3; o3; o4]
           (u "--T::00+09:00")
      then Some ([y1; y2; y3; y4], (m1, m2), (d1, d2), (h1, h2), (n1, n2))
      else None
  | _ => None
  end.

(** The layout alone: four digit characters for the year, two ASCII
    digits for month, day, hour and minute, the fixed punctuation, seconds
    and offset. *)
Definition kst_shape (v : str) : bool :=
  match kst_fields v with
  | Some (y, (m1, m2), (d1, d2), (h1, h2), (n1, n2)) =>
      forallb is_decimal y
      && forallb is_ascii_digit [m1; m2; d1; d2; h1; h2; n1; n2]
  | None => false
  end.

Definition two (a b : N) : N := 10 * (a - 48) + (b - 48).

Definition leap_year (y : N) : bool :=
  ((y mod 4 =? 0) && negb (y mod 100 =? 0)) || (y mod 400 =? 0).

Definition days_in_month (y m : N) : N :=
  match m with
  | 1 | 3 | 5 | 7 | 8 | 10 | 12 => 31
  | 4 | 6 | 9 | 11 => 30
  | 2 => if leap_year y then 29 else 28
  | _ => 0
  end.

(** The layout with a date of the calendar and a time of the 24-hour
    clock, as the data model words it. *)
Definition kst_valid (v : str) : bool :=
  match kst_fields v with
  | Some (y, (m1, m2), (d1, d2), (h1, h2), (n1, n2)) =>
      forallb is_ascii_digit y
      && forallb is_ascii_digit [m1; m2; d1; d2; h1; h2; n1; n2]
      && match y with
         | [y1; y2; y3; y4] =>
             let year := 100 * two y1 y2 + two y3 y4 in
             (1 <=? two m1 m2) && (two m1 m2 <=? 12)
             && (1 <=? two d1 d2)
             && (two d1 d2 <=? days_in_month year (two m1 m2))
         | _ => false
         end
      && (two h1 h2 <? 24) && (two n1 n2 <? 60)
  | None => false
  end.

(** The first geocoding result, when the reply is an array whose first
    element is an object with both coordinates. *)
Definition geocode_hit (reply : http_json) : option (json * json) :=
  match reply with
  | HttpJson (JArray (JObject members :: _)) =>
      match members_get (u "lat") members, members_get (u "lon") members with
      | Some lat, Some lon => Some (lat, lon)
      | _, _ => None
      end
  | _ => None
  end.

(** What a match of the time pattern captures: an hour of one or two
    digits, possibly a marker, possibly minutes of one or two digits. *)
Definition time_captures (g : groups) : Prop :=
  exists h,
    group 2 g = Some h /\ digits 1 2 h
    /\ (group 1 g = None \/ group 1 g = Some (u "오전")
        \/ group 1 g = Some (u "오후"))
    /\ (group 3 g = None
        \/ exists mm, group 3 g = Some mm /\ digits 1 2 mm).

(** The merge read field by field: what is found under key [k] after
    [parse_and_store_user_info]. *)
Definition merged (w : World) (user_input : str) (session : dict)
    (k : str) : option str :=
  if str_eqb k (u "gochradatetime") then
    Some (resolve_gochra_datetime w user_input)
  else if str_eqb k (u "birthdaytype") then
    Some (if py_in (u "음력") user_input then u "음력"
          else dict_get_default (u "birthdaytype") (u "양력") session)
  else if str_eqb k (u "usergender") then
    match extract_gender w user_input with
    | Some (c :: g) => Some (c :: g)
    | _ => dict_get k session
    end
  else if str_eqb k (u "coordinates") then
    match extract_place user_input with
    | Some (c :: p) => Some (get_coordinates w (c :: p))
    | _ => dict_get k session
    end
  else if str_eqb k (u "place") then
    match extract_place user_input with
    | Some (c :: p) => Some (c :: p)
    | _ => dict_get k session
    end
  else if str_eqb k (u "datetime") then
    match search date_re user_input with
    | Some dm => datetime_text dm (search time_re user_input)
    | None => dict_get k session
    end
  else dict_get k session.

(** Some match of [r] starts at one of the first [n] positions of [s]. *)
Fixpoint starts_before (r : regex) (n : nat) (s : str) : bool :=
  match n with
  | O => false
  | S n' =>
      match match_here r s with
      | Some _ => true
      | None =>
          match s with
          | [] => false
          | _ :: s' => starts_before r n' s'
          end
      end
  end.

(** [LlmInvoke] events of a trace. *)
Definition is_llm_invoke (e : event) : bool :=
  match e with
  | LlmInvoke _ => true
  | _ => false
  end.

Definition is_send (e : event) : bool :=
  match e with
  | Send _ => true
  | _ => false
  end.

Definition is_http_post (e : event) : bool :=
  match e with
  | HttpPost _ => true
  | _ => false
  end.

Definition is_http_get (e : event) : bool :=
  match e with
  | HttpGet _ => true
  | _ => false
  end.

(** The six field names the program writes. *)
Definition field_names : list str :=
  [u "datetime"; u "place"; u "coordinates"; u "usergender";
   u "birthdaytype"; u "gochradatetime"].

(** The pending prompts are none, or what the validator says of the
    stored fields. *)
Definition pending_consistent (s : user_session) : Prop :=
  pending_fields s = []
  \/ check_missing_fields (user_info s) = Some (pending_fields s).

(** ASCII-only lower-casing, for the sample world below. *)
Definition ascii_lower (s : str) : str :=
  map (fun c => if (65 <=? c) && (c <=? 90) then c + 32 else c) s.

(** A sample world: no service reachable, a language model that answers
    [ok]. *)
Definition offline : World :=
  {| py_lower := ascii_lower;
     json_text := fun _ => [];
     nominatim := fun _ => HttpRaises;
     astro_post := fun _ => ApiRequestException (u "offline");
     llm_invoke := fun _ => LlmContent (u "ok");
     clock_iso := fun _ => u "2024-01-01T00:00:00+09:00";
     clock_weekday := 0%Z;
     clock_kst := u "2024년 01월 01일 00시 00분";
     prompt_file := fun _ => None |}.

(** A sample world whose astrology service answers and whose language
    model raises. *)
Definition llm_down : World :=
  {| py_lower := ascii_lower;
     json_text := fun _ => [];
     nominatim := fun _ => HttpJson (JArray []);
     astro_post := fun _ => ApiText (u "chart");
     llm_invoke := fun _ => LlmException (u "timeout");
     clock_iso := fun _ => u "2024-01-01T00:00:00+09:00";
     clock_weekday := 0%Z;
     clock_kst := u "2024년 01월 01일 00시 00분";
     prompt_file := fun _ => None |}.

(** Python's text for the JSON values [None], [True] and [False]. *)
Definition python_text (v : json) : str :=
  match v with
  | JNull => u "None"
  | JBool true => u "True"
  | JBool false => u "False"
  | _ => []
  end.

(** A sample world whose geocoding service answers with one result. *)
Definition geocoder_up : World :=
  {| py_lower := ascii_lower;
     json_text := python_text;
     nominatim := fun _ =>
       HttpJson
         (JArray
            [JObject [(u "place_id", JNumber false);
                      (u "lat", JString (u "37.5666791"));
                      (u "lon", JString (u "126.9782914"))]]);
     astro_post := fun _ => ApiText (u "chart");
     llm_invoke := fun _ => LlmContent (u "ok");
     clock_iso := fun _ => u "2024-01-01T00:00:00+09:00";
     clock_weekday := 0%Z;
     clock_kst := u "2024년 01월 01일 00시 00분";
     prompt_file := fun _ => None |}.

(** A sample world whose geocoding service answers with one result that
    holds no coordinates: both entries are [null]. *)
Definition geocoder_nulls : World :=
  {| py_lower := ascii_lower;
     json_text := python_text;
     nominatim := fun _ =>
       HttpJson (JArray [JObject [(u "lat", JNull); (u "lon", JNull)]]);
     astro_post := fun _ => ApiText (u "chart");
     llm_invoke := fun _ => LlmContent (u "ok");
     clock_iso := fun _ => u "2024-01-01T00:00:00+09:00";
     clock_weekday := 0%Z;
     clock_kst := u "2024년 01월 01일 00시 00분";
     prompt_file := fun _ => None |}.

(** ** Strings and dictionaries *)

Lemma str_eqb_eq (a b : str) : str_eqb a b = true <-> a = b.
Proof.
  revert b; induction a as [|x a IH]; intros [|y b]; simpl;
    split; try congruence; try discriminate.
  - intros H. apply andb_true_iff in H as [H1 H2].
    apply N.eqb_eq in H1. apply IH in H2. subst. reflexivity.
  - intros H. injection H as -> ->. rewrite N.eqb_refl. simpl.
    apply IH. reflexivity.
Qed.

Lemma str_eqb_refl (a : str) : str_eqb a a = true.
Proof. apply str_eqb_eq. reflexivity. Qed.

Lemma drop_prefix_app (p r : str) : drop_prefix p (p ++ r) = Some r.
Proof.
  induction p as [|x p IH]; simpl; [reflexivity|].
  rewrite N.eqb_refl. exact IH.
Qed.

Lemma drop_prefix_inv (p s r : str) :
  drop_prefix p s = Some r -> s = p ++ r.
Proof.
  revert s; induction p as [|x p IH]; intros s H; simpl in *.
  - congruence.
  - destruct s as [|y s]; [discriminate|].
    destruct (x =? y) eqn:E; [|discriminate].
    apply N.eqb_eq in E. subst. f_equal. apply IH. exact H.
Qed.

Lemma py_in_intro (p a b : str) : py_in p (a ++ p ++ b) = true.
Proof.
  induction a as [|x a IH].
  - simpl app. destruct (p ++ b) eqn:E.
    + simpl. rewrite <- E, drop_prefix_app. reflexivity.
    + simpl. rewrite <- E, drop_prefix_app. reflexivity.
  - simpl. destruct (drop_prefix p (x :: a ++ p ++ b)); [reflexivity|].
    exact IH.
Qed.

Lemma py_in_elim (p s : str) :
  py_in p s = true -> exists a b, s = a ++ p ++ b.
Proof.
  induction s as [|x s IH]; simpl.
  - destruct (drop_prefix p []) eqn:E; [|discriminate].
    intros _. apply drop_prefix_inv in E. exists [], s. exact E.
  - destruct (drop_prefix p (x :: s)) eqn:E.
    + intros _. apply drop_prefix_inv in E. exists [], s0. exact E.
    + intros H. destruct (IH H) as (a & b & ->).
      exists (x :: a), b. reflexivity.
Qed.

Lemma drop_while_keeps (f : N -> bool) (x q y : str) :
  stops f q = true -> q <> [] ->
  exists x', drop_while f (x ++ q ++ y) = x' ++ q ++ y.
Proof.
  intros Hq Hne. induction x as [|c x IH].
  - exists []. destruct q as [|c q]; [congruence|].
    simpl in *. destruct (f c); [discriminate|reflexivity].
  - simpl. destruct (f c).
    + exact IH.
    + exists (c :: x). reflexivity.
Qed.

(** A phrase that neither starts nor ends with a blank survives
    [strip]. *)
Lemma strip_keeps (p s : str) :
  stops is_space p = true -> stops is_space (rev p) = true -> p <> [] ->
  py_in p s = true -> py_in p (strip s) = true.
Proof.
  intros H1 H2 Hne H. apply py_in_elim in H as (a & b & ->).
  unfold strip, lstrip, rstrip.
  destruct (drop_while_keeps is_space a p b H1 Hne) as [a' ->].
  rewrite !rev_app_distr, <- app_assoc.
  assert (Hr : rev p <> []).
  { intros E. apply Hne. rewrite <- (rev_involutive p), E. reflexivity. }
  destruct (drop_while_keeps is_space (rev b) (rev p) (rev a') H2 Hr)
    as [b' ->].
  rewrite !rev_app_distr, rev_involutive, <- app_assoc, rev_involutive.
  apply py_in_intro.
Qed.

Lemma dict_get_set_same (k v : str) (d : dict) :
  dict_get k (dict_set k v d) = Some v.
Proof.
  induction d as [|[k' v'] d IH]; simpl.
  - rewrite str_eqb_refl. reflexivity.
  - destruct (str_eqb k k') eqn:E; simpl.
    + rewrite str_eqb_refl. reflexivity.
    + rewrite E. exact IH.
Qed.

Lemma dict_get_set_other (k k' v : str) (d : dict) :
  str_eqb k' k = false ->
  dict_get k' (dict_set k v d) = dict_get k' d.
Proof.
  intros Hk. induction d as [|[k0 v0] d IH]; simpl.
  - rewrite Hk. reflexivity.
  - destruct (str_eqb k k0) eqn:E; simpl.
    + apply str_eqb_eq in E. subst k0. rewrite Hk. reflexivity.
    + rewrite IH. reflexivity.
Qed.

(** ** Numbers and their decimal text *)

Lemma decimal_in_lt (zs : list N) (c v : N) :
  decimal_in zs c = Some v -> v < 10.
Proof.
  induction zs as [|z zs IH]; simpl; [discriminate|].
  destruct ((z <=? c) && (c <? z + 10)) eqn:E; [|exact IH].
  intros H. injection H as <-.
  apply andb_true_iff in E as [E1 E2].
  apply N.leb_le in E1. apply N.ltb_lt in E2. lia.
Qed.

Lemma decimal_value_lt (c v : N) : decimal_value c = Some v -> v < 10.
Proof. apply decimal_in_lt. Qed.

Lemma is_decimal_value (c : N) :
  is_decimal c = true -> exists v, decimal_value c = Some v /\ v < 10.
Proof.
  unfold is_decimal. destruct (decimal_value c) as [v|] eqn:E;
    [|discriminate].
  intros _. exists v. split; [reflexivity|]. eapply decimal_value_lt, E.
Qed.

Lemma int_small (s : str) :
  digits 1 2 s -> exists v, int s = Some v /\ v < 100.
Proof.
  intros [Hd [Hlo Hhi]].
  destruct s as [|a [|b [|c s]]]; simpl in Hlo, Hhi; try lia.
  - simpl in Hd. rewrite andb_true_r in Hd.
    destruct (is_decimal_value a Hd) as (va & Ea & Ha).
    exists (10 * 0 + va). cbn [int int_digits]. rewrite Ea.
    split; [reflexivity|lia].
  - simpl in Hd. rewrite andb_true_r in Hd.
    apply andb_true_iff in Hd as [Hda Hdb].
    destruct (is_decimal_value a Hda) as (va & Ea & Ha).
    destruct (is_decimal_value b Hdb) as (vb & Eb & Hb).
    exists (10 * (10 * 0 + va) + vb). cbn [int int_digits].
    rewrite Ea, Eb. split; [reflexivity|lia].
Qed.

Lemma below_100 (P : N -> bool) :
  forallb P (map N.of_nat (seq 0 100)) = true ->
  forall n, n < 100 -> P n = true.
Proof.
  intros H n Hn. rewrite forallb_forall in H. apply H.
  apply in_map_iff. exists (N.to_nat n). split; [apply N2Nat.id|].
  apply in_seq. lia.
Qed.

Lemma fmt02_small (n : N) :
  n < 100 -> fmt02 n = [48 + n / 10; 48 + n mod 10].
Proof.
  intros Hn. apply str_eqb_eq.
  revert n Hn.
  apply (below_100 (fun n => str_eqb (fmt02 n) [48 + n / 10; 48 + n mod 10])).
  vm_compute. reflexivity.
Qed.

Lemma int_str_of_int (n : N) : n < 100 -> int (str_of_int n) = Some n.
Proof.
  intros Hn.
  assert (H : match int (str_of_int n) with
              | Some v => v =? n
              | None => false
              end = true).
  { revert n Hn.
    apply (below_100 (fun n => match int (str_of_int n) with
                               | Some v => v =? n
                               | None => false
                               end)).
    vm_compute. reflexivity. }
  destruct (int (str_of_int n)); [|discriminate].
  apply N.eqb_eq in H. subst. reflexivity.
Qed.

(** ** The matcher *)

Section Matcher.

Context {A : Type}.

Lemma backoff_inv (f : nat -> option A) (lo n : nat) (x : A) :
  backoff f lo n = Some x ->
  exists j, (lo <= j <= n)%nat /\ f j = Some x.
Proof.
  induction n as [|n IH]; cbn [backoff];
    destruct (Nat.ltb _ lo) eqn:E; try discriminate;
    apply Nat.ltb_ge in E; destruct (f _) eqn:F; intros H;
    try discriminate.
  - injection H as ->. exists O. split; [lia|exact F].
  - injection H as ->. exists (S n). split; [lia|exact F].
  - apply IH in H as (j & Hj & Fj). exists j. split; [lia|exact Fj].
Qed.

Lemma backoff_first (f : nat -> option A) (lo n : nat) (x : A) :
  (lo <= n)%nat -> f n = Some x -> backoff f lo n = Some x.
Proof.
  intros Hn F. apply Nat.ltb_ge in Hn.
  destruct n; cbn [backoff]; rewrite Hn, F; reflexivity.
Qed.

Lemma run_firstn (cls : N -> bool) (s : str) :
  forall hi j, (j <= run cls hi s)%nat ->
    forallb cls (firstn j s) = true /\ length (firstn j s) = j
    /\ match hi with Some h => (j <= h)%nat | None => True end.
Proof.
  induction s as [|c s IH]; intros hi j Hj; cbn [run] in Hj.
  - assert (j = O) by lia. subst. simpl. destruct hi; repeat split; lia.
  - destruct (cls c) eqn:Ec.
    + destruct j as [|j].
      { simpl. destruct hi; repeat split; lia. }
      destruct hi as [[|h]|].
      * lia.
      * destruct (IH (Some h) j) as (F & L & B); [lia|].
        cbn [firstn forallb length]. rewrite Ec, F, L.
        repeat split. lia.
      * destruct (IH None j) as (F & L & _); [lia|].
        cbn [firstn forallb length]. rewrite Ec, F, L.
        repeat split.
    + assert (j = O) by lia. subst. simpl.
      destruct hi; repeat split; lia.
Qed.

Lemma run_exact (cls : N -> bool) (a b : str) :
  forall hi,
    forallb cls a = true -> stops cls b = true ->
    match hi with Some h => (length a <= h)%nat | None => True end ->
    run cls hi (a ++ b) = length a.
Proof.
  induction a as [|c a IH]; intros hi Ha Hb Hh.
  - simpl. destruct b as [|c b]; [reflexivity|].
    simpl in Hb. cbn [run]. destruct (cls c); [discriminate|reflexivity].
  - cbn [forallb] in Ha. apply andb_true_iff in Ha as [Hc Ha].
    cbn [app run length]. rewrite Hc.
    destruct hi as [[|h]|].
    + simpl in Hh. lia.
    + rewrite (IH (Some h)); [reflexivity|exact Ha|exact Hb|].
      simpl in Hh. lia.
    + rewrite (IH None); [reflexivity|exact Ha|exact Hb|exact I].
Qed.

(** Every success of the matcher is a match of the pattern: the text
    consumed is matched by [r] and the continuation succeeded on the
    rest. *)
Lemma rmatch_sound (r : regex) :
  forall (s : str) (g : groups) (k : str -> groups -> option A) (x : A),
    rmatch r s g k = Some x ->
    exists a s' g', s = a ++ s' /\ matches r a g g' /\ k s' g' = Some x.
Proof.
  induction r as [|l|cls lo hi|r1 IH1 r2 IH2|r1 IH1 r2 IH2|r1 IH1|n r1 IH1];
    intros s g k x H; cbn [rmatch] in H.
  - exists [], s, g. split; [reflexivity|]. split; [constructor|exact H].
  - destruct (drop_prefix l s) as [s'|] eqn:E; [|discriminate].
    apply drop_prefix_inv in E. exists l, s', g.
    split; [exact E|]. split; [constructor|exact H].
  - apply backoff_inv in H as (j & [Hlo Hj] & Hk).
    destruct (run_firstn cls s hi j Hj) as (F & L & B).
    exists (firstn j s), (skipn j s), g.
    split; [symmetry; apply firstn_skipn|]. split; [|exact Hk].
    constructor; [exact F|lia|]. rewrite L. exact B.
  - apply IH1 in H as (a & s1 & g1 & -> & M1 & H).
    apply IH2 in H as (b & s2 & g2 & -> & M2 & H).
    exists (a ++ b), s2, g2.
    split; [apply app_assoc|]. split; [|exact H].
    econstructor; eassumption.
  - destruct (rmatch r1 s g k) as [y|] eqn:E.
    + injection H as ->. apply IH1 in E as (a & s' & g' & -> & M & E).
      exists a, s', g'.
      split; [reflexivity|]. split; [apply m_alt_l; exact M|exact E].
    + apply IH2 in H as (a & s' & g' & -> & M & H).
      exists a, s', g'.
      split; [reflexivity|]. split; [apply m_alt_r; exact M|exact H].
  - destruct (rmatch r1 s g k) as [y|] eqn:E.
    + injection H as ->. apply IH1 in E as (a & s' & g' & -> & M & E).
      exists a, s', g'.
      split; [reflexivity|]. split; [apply m_opt_some; exact M|exact E].
    + exists [], s, g.
      split; [reflexivity|]. split; [apply m_opt_none|exact H].
  - apply IH1 in H as (a & s' & g' & -> & M & H).
    rewrite length_app, Nat.add_sub, firstn_app, Nat.sub_diag in H.
    rewrite firstn_all, firstn_O, app_nil_r in H.
    exists a, s', ((n, a) :: g').
    split; [reflexivity|]. split; [constructor; exact M|exact H].
Qed.

(** A quantified class takes its longest run first; when the continuation
    accepts that, nothing else is tried. *)
Lemma rmatch_rep_greedy (cls : N -> bool) (lo : nat) (hi : option nat)
    (a b : str) (g : groups) (k : str -> groups -> option A) (x : A) :
  forallb cls a = true -> stops cls b = true ->
  (lo <= length a)%nat ->
  match hi with Some h => (length a <= h)%nat | None => True end ->
  k b g = Some x ->
  rmatch (Rep cls lo hi) (a ++ b) g k = Some x.
Proof.
  intros Ha Hb Hlo Hhi Hk. cbn [rmatch].
  rewrite (run_exact cls a b hi Ha Hb Hhi).
  apply backoff_first; [exact Hlo|].
  rewrite skipn_app, skipn_all, Nat.sub_diag. exact Hk.
Qed.

Lemma rmatch_grp_rep_greedy (n : nat) (cls : N -> bool) (lo : nat)
    (hi : option nat) (a b : str) (g : groups)
    (k : str -> groups -> option A) (x : A) :
  forallb cls a = true -> stops cls b = true ->
  (lo <= length a)%nat ->
  match hi with Some h => (length a <= h)%nat | None => True end ->
  k b ((n, a) :: g) = Some x ->
  rmatch (Grp n (Rep cls lo hi)) (a ++ b) g k = Some x.
Proof.
  intros Ha Hb Hlo Hhi Hk. cbn [rmatch].
  rewrite (run_exact cls a b hi Ha Hb Hhi).
  apply backoff_first; [exact Hlo|].
  rewrite skipn_app, skipn_all, Nat.sub_diag.
  cbn [skipn app]. rewrite length_app, Nat.add_sub, firstn_app, Nat.sub_diag.
  rewrite firstn_all, firstn_O, app_nil_r. exact Hk.
Qed.

End Matcher.

Ltac invert_matches :=
  repeat match goal with
  | H : matches (Seq _ _) _ _ _ |- _ => inversion H; clear H; subst
  | H : matches (Grp _ _) _ _ _ |- _ => inversion H; clear H; subst
  | H : matches (Rep _ _ _) _ _ _ |- _ => inversion H; clear H; subst
  | H : matches (Lit _) _ _ _ |- _ => inversion H; clear H; subst
  | H : matches (Alt _ _) _ _ _ |- _ => inversion H; clear H; subst
  | H : matches (Opt _) _ _ _ |- _ => inversion H; clear H; subst
  end.

Lemma rmatch_seq {A : Type} (r1 r2 : regex) (s : str) (g : groups)
    (k : str -> groups -> option A) :
  rmatch (Seq r1 r2) s g k = rmatch r1 s g (fun s' g' => rmatch r2 s' g' k).
Proof. reflexivity. Qed.

Lemma search_inv (r : regex) (s : str) (g : groups) :
  search r s = Some g ->
  exists pre a rest, s = pre ++ a ++ rest /\ matches r a [] g.
Proof.
  induction s as [|c s IH]; cbn [search];
    destruct (match_here r _) as [g0|] eqn:E; intros H; try discriminate.
  - injection H as ->. unfold match_here in E.
    apply rmatch_sound in E as (a & s' & g' & Es & M & E).
    injection E as ->. exists [], a, s'. split; [exact Es|exact M].
  - injection H as ->. unfold match_here in E.
    apply rmatch_sound in E as (a & s' & g' & Es & M & E).
    injection E as ->. exists [], a, s'. split; [exact Es|exact M].
  - apply IH in H as (pre & a & rest & -> & M).
    exists (c :: pre), a, rest. split; [reflexivity|exact M].
Qed.

(** [search] passes over the start positions at which the pattern does
    not match. *)
Lemma search_skip (r : regex) (n : nat) :
  forall s, starts_before r n s = false -> search r s = search r (skipn n s).
Proof.
  induction n as [|n IH]; intros s H; [reflexivity|].
  cbn [starts_before] in H.
  destruct (match_here r s) as [g|] eqn:E; [discriminate|].
  destruct s as [|c s]; [reflexivity|].
  cbn [search skipn]. rewrite E. apply IH. exact H.
Qed.

Lemma search_here (r : regex) (s : str) (g : groups) :
  match_here r s = Some g -> search r s = Some g.
Proof. intros H. destruct s; cbn [search]; rewrite H; reflexivity. Qed.

(** *** What the three patterns capture *)

Lemma date_groups (s : str) (g : groups) :
  search date_re s = Some g ->
  exists y m d,
    g = [(3%nat, d); (2%nat, m); (1%nat, y)]
    /\ digits 4 4 y /\ digits 1 2 m /\ digits 1 2 d.
Proof.
  intros H. apply search_inv in H as (pre & a & rest & _ & M).
  unfold date_re in M. cbn [cat] in M. invert_matches.
  eexists _, _, _. split; [reflexivity|].
  unfold digits. repeat split; assumption.
Qed.

Lemma time_groups (s : str) (g : groups) :
  search time_re s = Some g -> time_captures g.
Proof.
  intros H. apply search_inv in H as (pre & a & rest & _ & M).
  unfold time_re in M. cbn [cat] in M. invert_matches.
  all: unfold time_captures; eexists; cbn [group Nat.eqb]; unfold digits.
  all: split; [reflexivity|].
  all: split; [split; [assumption|split; assumption]|].
  all: split; [auto|].
  all: first [ left; reflexivity
             | right; eexists; split; [reflexivity|];
               split; [assumption|split; assumption] ].
Qed.

Lemma place_group (s : str) (g : groups) :
  search place_re s = Some g ->
  exists p, group 1 g = Some p /\ p <> [].
Proof.
  intros H. apply search_inv in H as (pre & a & rest & _ & M).
  unfold place_re in M. cbn [cat] in M. invert_matches;
    eexists; cbn [group Nat.eqb]; (split; [reflexivity|]);
    intros ->; simpl in *; lia.
Qed.

Lemma class_not_decimal (cs : str) :
  forallb (fun c => negb (is_decimal c)) cs = true ->
  forall c, is_decimal c = true -> one_of cs c = false.
Proof.
  intros H c Hc. destruct (one_of cs c) eqn:E; [|reflexivity].
  unfold one_of in E. apply existsb_exists in E as (x & Hin & Hx).
  apply N.eqb_eq in Hx. subst x.
  rewrite forallb_forall in H. apply H in Hin.
  rewrite Hc in Hin. discriminate.
Qed.

(** A date written [YYYY년 MM월 DD일] is matched where it starts, with its
    three numbers captured. *)
Lemma date_re_here (y m d suf : str) :
  digits 4 4 y -> digits 1 2 m -> digits 1 2 d ->
  match_here date_re (y ++ u "년 " ++ m ++ u "월 " ++ d ++ u "일" ++ suf)
  = Some [(3%nat, d); (2%nat, m); (1%nat, y)].
Proof.
  intros [Hy [Hy1 Hy2]] [Hm [Hm1 Hm2]] [Hd [Hd1 Hd2]].
  destruct m as [|m1 m]; [simpl in Hm1; lia|].
  destruct d as [|d1 d]; [simpl in Hd1; lia|].
  assert (Hm1d : is_decimal m1 = true).
  { cbn [forallb] in Hm. apply andb_true_iff in Hm as [H _]. exact H. }
  assert (Hd1d : is_decimal d1 = true).
  { cbn [forallb] in Hd. apply andb_true_iff in Hd as [H _]. exact H. }
  unfold match_here, date_re. cbn [cat].
  rewrite rmatch_seq.
  apply rmatch_grp_rep_greedy; [exact Hy|reflexivity|exact Hy1|exact Hy2|].
  rewrite rmatch_seq.
  apply rmatch_rep_greedy; [reflexivity| |simpl; lia|exact I|].
  { cbn [app stops].
    rewrite (class_not_decimal (u "년-/. ") eq_refl m1 Hm1d). reflexivity. }
  rewrite rmatch_seq.
  apply rmatch_grp_rep_greedy; [exact Hm|reflexivity|exact Hm1|exact Hm2|].
  rewrite rmatch_seq.
  apply rmatch_rep_greedy; [reflexivity| |simpl; lia|exact I|].
  { cbn [app stops].
    rewrite (class_not_decimal (u "월-/. ") eq_refl d1 Hd1d). reflexivity. }
  rewrite rmatch_seq.
  apply rmatch_grp_rep_greedy; [exact Hd|reflexivity|exact Hd1|exact Hd2|].
  cbn [rmatch]. apply backoff_first; [lia|reflexivity].
Qed.

(** ** The text stored under [datetime] *)

Lemma ascii_digit_tens (n : N) :
  n < 100 -> is_ascii_digit (48 + n / 10) = true.
Proof.
  revert n. apply (below_100 (fun n => is_ascii_digit (48 + n / 10))).
  vm_compute. reflexivity.
Qed.

Lemma ascii_digit_units (n : N) :
  n < 100 -> is_ascii_digit (48 + n mod 10) = true.
Proof.
  revert n. apply (below_100 (fun n => is_ascii_digit (48 + n mod 10))).
  vm_compute. reflexivity.
Qed.

Lemma iso_text_shape (y : str) (mv dv hv nv : N) :
  digits 4 4 y -> mv < 100 -> dv < 100 -> hv < 100 -> nv < 100 ->
  kst_shape (iso_text y mv dv hv nv) = true.
Proof.
  intros [Hy [Hy1 Hy2]] Hm Hd Hh Hn.
  destruct y as [|y1 [|y2 [|y3 [|y4 [|y5 y]]]]]; simpl in Hy1, Hy2; try lia.
  unfold iso_text. rewrite !fmt02_small by assumption.
  unfold kst_shape.
  change (kst_fields _) with
    (Some ([y1; y2; y3; y4], (48 + mv / 10, 48 + mv mod 10),
           (48 + dv / 10, 48 + dv mod 10), (48 + hv / 10, 48 + hv mod 10),
           (48 + nv / 10, 48 + nv mod 10))).
  cbv beta iota. rewrite Hy. cbn [forallb andb].
  rewrite !ascii_digit_tens, !ascii_digit_units by assumption.
  reflexivity.
Qed.

Lemma committed_hour_small (ampm : option str) (h : N) :
  h < 100 -> committed_hour ampm h < 100.
Proof.
  intros H. unfold committed_hour.
  destruct (opt_eqb ampm (u "오후")); cbn [andb]; [|exact H].
  destruct (h <? 12) eqn:E; [|exact H]. apply N.ltb_lt in E. lia.
Qed.

(** The block under [if date_match:] never raises on what the patterns
    capture, and stores the text of the captured year and of four numbers
    below 100. *)
Lemma datetime_text_spec (y m d : str) (tm : option groups) :
  digits 4 4 y -> digits 1 2 m -> digits 1 2 d ->
  (forall g, tm = Some g -> time_captures g) ->
  exists mv dv hv nv,
    int m = Some mv /\ int d = Some dv
    /\ mv < 100 /\ dv < 100 /\ hv < 100 /\ nv < 100
    /\ datetime_text [(3%nat, d); (2%nat, m); (1%nat, y)] tm
       = Some (iso_text y mv dv hv nv)
    /\ match tm with
       | None => hv = 12 /\ nv = 0
       | Some g =>
           exists h ph,
             group 2 g = Some h /\ int h = Some ph
             /\ hv = committed_hour (group 1 g) ph
       end.
Proof.
  intros Hy Hm Hd Ht.
  destruct (int_small m Hm) as (mv & Em & Hmv).
  destruct (int_small d Hd) as (dv & Ed & Hdv).
  unfold datetime_text. cbn [group Nat.eqb].
  destruct tm as [g|].
  - destruct (Ht g eq_refl) as (h & E2 & Hh & H1 & H3).
    destruct (int_small h Hh) as (ph & Eh & Hph).
    rewrite E2.
    assert (Hmin : exists minute nv,
               (if truthy (group 3 g) then group 3 g else Some (u "00"))
               = Some minute /\ int minute = Some nv /\ nv < 100).
    { destruct H3 as [E3|(mm & E3 & Hmm)]; rewrite E3.
      - exists (u "00"), 0.
        split; [reflexivity|]. split; reflexivity.
      - destruct (int_small mm Hmm) as (nv & En & Hnv).
        exists mm, nv. destruct Hmm as [_ [Hl _]].
        destruct mm; [simpl in Hl; lia|]. repeat split; assumption. }
    destruct Hmin as (minute & nv & -> & En & Hnv).
    assert (Hhour : exists hour,
               (if opt_eqb (group 1 g) (u "오후")
                then match int h with
                     | Some hv =>
                         Some (if hv <? 12 then str_of_int (hv + 12) else h)
                     | None => None
                     end
                else Some h) = Some hour
               /\ int hour = Some (committed_hour (group 1 g) ph)).
    { unfold committed_hour. rewrite Eh.
      destruct (opt_eqb (group 1 g) (u "오후")); cbn [andb].
      - destruct (ph <? 12) eqn:E12.
        + exists (str_of_int (ph + 12)). split; [reflexivity|].
          apply int_str_of_int. apply N.ltb_lt in E12. lia.
        + exists h. split; [reflexivity|exact Eh].
      - exists h. split; [reflexivity|exact Eh]. }
    destruct Hhour as (hour & -> & Ehour).
    cbn [fst snd]. rewrite Em, Ed, Ehour, En.
    exists mv, dv, (committed_hour (group 1 g) ph), nv.
    repeat split; try assumption.
    + apply committed_hour_small. exact Hph.
    + exists h, ph. repeat split; assumption.
  - cbn [fst snd]. rewrite Em, Ed.
    change (int (u "12")) with (Some 12).
    change (int (u "00")) with (Some 0).
    exists mv, dv, 12, 0. repeat split; try assumption; lia.
Qed.

(** ** The merge, field by field *)

Lemma datetime_text_total (user_input : str) (dm : groups) :
  search date_re user_input = Some dm ->
  exists text, datetime_text dm (search time_re user_input) = Some text.
Proof.
  intros Hd. apply date_groups in Hd as (y & m & d & -> & Hy & Hm & Hd).
  destruct (datetime_text_spec y m d (search time_re user_input) Hy Hm Hd)
    as (mv & dv & hv & nv & _ & _ & _ & _ & _ & _ & E & _).
  - intros g Hg. eapply time_groups, Hg.
  - eexists. exact E.
Qed.

Ltac dict_simpl :=
  repeat first
    [ rewrite dict_get_set_same
    | rewrite dict_get_set_other by (assumption || reflexivity) ].

Ltac key_case k K :=
  match goal with
  | |- context [str_eqb k ?key] =>
      destruct (str_eqb k key) eqn:K;
      [apply str_eqb_eq in K; subst k; dict_simpl; reflexivity|]
  end.

(** [parse_and_store_user_info] never raises, and its result holds under
    every key what [merged] says. *)
Lemma parse_spec (w : World) (user_input : str) (session : dict) :
  exists r,
    parse_and_store_user_info w user_input session = Some r
    /\ forall k, dict_get k r = merged w user_input session k.
Proof.
  unfold parse_and_store_user_info, merged, dict_get_default. cbv zeta.
  destruct (search date_re user_input) as [dm|] eqn:Ed.
  - destruct (datetime_text_total user_input dm Ed) as [text ->].
    destruct (extract_place user_input) as [[|c p]|];
      destruct (extract_gender w user_input) as [[|c' g']|];
      cbn [truthy]; (eexists; split; [reflexivity|]); intros k;
      key_case k K1; key_case k K2; key_case k K3; key_case k K4;
      key_case k K5; key_case k K6; dict_simpl; reflexivity.
  - destruct (extract_place user_input) as [[|c p]|];
      destruct (extract_gender w user_input) as [[|c' g']|];
      cbn [truthy]; (eexists; split; [reflexivity|]); intros k;
      key_case k K1; key_case k K2; key_case k K3; key_case k K4;
      key_case k K5; key_case k K6; dict_simpl; reflexivity.
Qed.

(** ** Turns *)

Ltac handle_cases :=
  unfold handle, done, uncaught, and_then; cbv zeta;
  repeat match goal with
  | |- context [if ?b then _ else _] => destruct b eqn:?
  | |- context [match ?x with _ => _ end] => destruct x eqn:?
  end.

(** A turn leaves the fields as they were or replaces them by the result
    of one merge. *)
Lemma handle_user_info (w : World) (content : str) (s : user_session) :
  user_info (fst (handle w content s)) = user_info s
  \/ parse_and_store_user_info w (strip content) (user_info s)
     = Some (user_info (fst (handle w content s))).
Proof.
  handle_cases; cbn; auto.
Qed.

(** The only write to [general_mode] sets it. *)
Lemma handle_general_mode (w : World) (content : str) (s : user_session) :
  general_mode (fst (handle w content s))
  = is_general_mode_request (strip content) || general_mode s.
Proof.
  handle_cases; cbn; try reflexivity; try congruence.
Qed.

Lemma converse_app (t1 t2 : list (World * str)) (s : user_session) :
  converse (t1 ++ t2) s = converse t2 (converse t1 s).
Proof.
  revert s. induction t1 as [|[w c] t1 IH]; intros s; [reflexivity|].
  cbn [app converse]. apply IH.
Qed.

Lemma converse_general_mode (turns : list (World * str)) (s : user_session) :
  general_mode s = true -> general_mode (converse turns s) = true.
Proof.
  revert s. induction turns as [|[w c] turns IH]; intros s H; [exact H|].
  cbn [converse]. apply IH. rewrite handle_general_mode, H.
  apply orb_true_r.
Qed.

Lemma toggle_phrase_strip (content : str) :
  is_general_mode_request content = true ->
  is_general_mode_request (strip content) = true.
Proof.
  unfold is_general_mode_request. intros H.
  apply orb_true_iff in H as [H|H]; [apply orb_true_iff in H as [H|H]|].
  - rewrite (strip_keeps (u "일반으로") _ eq_refl eq_refl)
      by (discriminate || exact H).
    reflexivity.
  - rewrite (strip_keeps (u "api 없이") _ eq_refl eq_refl)
      by (discriminate || exact H).
    apply orb_true_iff. left. apply orb_true_r.
  - rewrite (strip_keeps (u "대화만") _ eq_refl eq_refl)
      by (discriminate || exact H).
    apply orb_true_r.
Qed.

(** Invariants of the fields carry over a conversation when every merge
    keeps them. *)
Lemma converse_fields (P : dict -> Prop) :
  (forall w user_input session r,
      P session ->
      parse_and_store_user_info w user_input session = Some r -> P r) ->
  forall turns s, P (user_info s) -> P (user_info (converse turns s)).
Proof.
  intros Hstep turns. induction turns as [|[w c] turns IH]; intros s H;
    [exact H|].
  cbn [converse]. apply IH.
  destruct (handle_user_info w c s) as [E|E].
  - rewrite E. exact H.
  - eapply Hstep; eassumption.
Qed.

Lemma In_existsb (x : str) (l : list str) :
  In x l -> existsb (str_eqb x) l = true.
Proof.
  intros H. apply existsb_exists. exists x. split; [exact H|].
  apply str_eqb_refl.
Qed.

(** ** The properties of the specification *)

(** The validator never raises and lists the prompts of the absent
    required keys in the order of [required]. *)
Lemma missing_prompts (payload : dict) :
  check_missing_fields payload
  = Some ((if dict_mem (u "datetime") payload then []
           else [u "⏰ 태어난 날짜와 시간을 알려주세요."])
          ++ (if dict_mem (u "place") payload then []
              else [u "📍 태어난 지역을 알려주세요."])
          ++ (if dict_mem (u "coordinates") payload then []
              else [u "🌐 출생지 정보를 더 정확히 알려주세요."])
          ++ (if dict_mem (u "usergender") payload then []
              else [u "👤 성별을 알려주세요. (남성/여성)"])).
Proof.
  unfold check_missing_fields, required. cbn [filter].
  destruct (dict_mem (u "datetime") payload),
           (dict_mem (u "place") payload),
           (dict_mem (u "coordinates") payload),
           (dict_mem (u "usergender") payload);
    reflexivity.
Qed.

(** C5.  For every fields mapping, the Missing-Field Validator returns
    exactly the prompts of the required keys that are absent, in the order
    datetime, place, coordinates, usergender, and it returns the empty
    sequence if and only if all four keys are present. *)
Theorem check_missing_fields_spec (payload : dict) :
  check_missing_fields payload
  = Some ((if dict_mem (u "datetime") payload then []
           else [u "⏰ 태어난 날짜와 시간을 알려주세요."])
          ++ (if dict_mem (u "place") payload then []
              else [u "📍 태어난 지역을 알려주세요."])
          ++ (if dict_mem (u "coordinates") payload then []
              else [u "🌐 출생지 정보를 더 정확히 알려주세요."])
          ++ (if dict_mem (u "usergender") payload then []
              else [u "👤 성별을 알려주세요. (남성/여성)"]))
  /\ (check_missing_fields payload = Some []
      <-> dict_mem (u "datetime") payload = true
          /\ dict_mem (u "place") payload = true
          /\ dict_mem (u "coordinates") payload = true
          /\ dict_mem (u "usergender") payload = true).
Proof.
  split; [apply missing_prompts|].
  rewrite missing_prompts.
  destruct (dict_mem (u "datetime") payload),
           (dict_mem (u "place") payload),
           (dict_mem (u "coordinates") payload),
           (dict_mem (u "usergender") payload);
    (split; [intros H; try (vm_compute in H; discriminate H)
            |intros (H1 & H2 & H3 & H4); try discriminate]);
    repeat split.
Qed.

(** The adapter in one equation: the two entries of the first result
    joined by a comma when the reply is an array whose first element is an
    object holding both, and the fallback in every other case. *)
Lemma get_coordinates_spec (w : World) (place : str) :
  get_coordinates w place
  = match geocode_hit (nominatim w place) with
    | Some (lat, lon) => format_json w lat ++ u "," ++ format_json w lon
    | None => u "35.2721355,128.8452281"
    end.
Proof.
  unfold get_coordinates, geocode_hit, first_result.
  destruct (nominatim w place) as [|data]; [reflexivity|].
  destruct data as [|b|z|s|items|members].
  - reflexivity.
  - destruct b; reflexivity.
  - destruct z; reflexivity.
  - destruct s; reflexivity.
  - destruct items as [|x items]; [reflexivity|].
    cbn [json_truthy json_first].
    destruct x as [|b|z|s|xs|members]; try reflexivity.
    cbn [json_item].
    destruct (members_get (u "lat") members);
      destruct (members_get (u "lon") members); reflexivity.
  - destruct members; reflexivity.
Qed.

(** C8, as the program has it.  For every place name the Geocoding
    Adapter returns a string and never raises.  It returns the fixed
    fallback when the request or the decoding raises, when the decoded
    reply is falsy (an empty result set in particular) and when the reply
    cannot be indexed by [0] and then by lat and by lon.  In every other
    case it returns the lat and lon entries of the first result joined by
    a comma, taken as they are: a string verbatim, any other value in
    Python's text form, with no check that they are coordinates. *)
Theorem get_coordinates_cases (w : World) (place : str) :
  (nominatim w place = HttpRaises ->
   get_coordinates w place = u "35.2721355,128.8452281")
  /\ (forall data,
        nominatim w place = HttpJson data -> json_truthy data = false ->
        get_coordinates w place = u "35.2721355,128.8452281")
  /\ (forall data,
        nominatim w place = HttpJson data -> json_truthy data = true ->
        json_first data = None
        \/ (exists r,
              json_first data = Some r
              /\ (json_item (u "lat") r = None
                  \/ json_item (u "lon") r = None)) ->
        get_coordinates w place = u "35.2721355,128.8452281")
  /\ (forall data r lat lon,
        nominatim w place = HttpJson data -> json_truthy data = true ->
        json_first data = Some r ->
        json_item (u "lat") r = Some lat ->
        json_item (u "lon") r = Some lon ->
        get_coordinates w place
        = format_json w lat ++ u "," ++ format_json w lon)
  /\ (forall s, format_json w (JString s) = s).
Proof.
  unfold get_coordinates, first_result.
  split; [intros ->; reflexivity|].
  split; [intros data -> ->; reflexivity|].
  split.
  - intros data -> -> [Hf|(r & Hf & [Hl|Hl])]; rewrite Hf;
      try reflexivity; try (rewrite Hl; reflexivity).
    destruct (json_item (u "lat") r); [rewrite Hl|]; reflexivity.
  - split; [|reflexivity].
    intros data r lat lon -> -> Hf Hlat Hlon.
    rewrite Hf, Hlat, Hlon. reflexivity.
Qed.

Lemma get_coordinates_cases_witness :
  nominatim geocoder_up (u "서울")
  = HttpJson
      (JArray
         [JObject [(u "place_id", JNumber false);
                   (u "lat", JString (u "37.5666791"));
                   (u "lon", JString (u "126.9782914"))]])
  /\ get_coordinates geocoder_up (u "서울") = u "37.5666791,126.9782914"
  /\ nominatim offline (u "서울") = HttpRaises
  /\ get_coordinates offline (u "서울") = u "35.2721355,128.8452281"
  /\ nominatim llm_down (u "서울") = HttpJson (JArray [])
  /\ get_coordinates llm_down (u "서울") = u "35.2721355,128.8452281".
Proof.
  split; [reflexivity|]. split.
  - exact (proj1 (proj2 (proj2 (proj2
             (get_coordinates_cases geocoder_up (u "서울")))))
             _ _ (JString (u "37.5666791")) (JString (u "126.9782914"))
             eq_refl eq_refl eq_refl eq_refl eq_refl).
  - split; [reflexivity|]. split.
    + exact (proj1 (get_coordinates_cases offline (u "서울")) eq_refl).
    + split; [reflexivity|].
      exact (proj1 (proj2 (get_coordinates_cases llm_down (u "서울")))
               _ eq_refl eq_refl).
Defined.

(** C8 as stated fails: a reply whose first result holds lat and lon
    without coordinates in them is not turned into the fallback; with both
    entries [null] the adapter returns the text None,None. *)
Lemma get_coordinates_counterexample :
  nominatim geocoder_nulls (u "서울")
  = HttpJson (JArray [JObject [(u "lat", JNull); (u "lon", JNull)]])
  /\ get_coordinates geocoder_nulls (u "서울") = u "None,None"
  /\ get_coordinates geocoder_nulls (u "서울")
     <> u "35.2721355,128.8452281".
Proof.
  split; [reflexivity|]. split; [vm_compute; reflexivity|].
  vm_compute. discriminate.
Qed.

(** C10.  For every session whose birthdaytype is 음력 and every message,
    the merged session's birthdaytype is still 음력, whatever the message
    says. *)
Theorem lunar_is_kept (w : World) (user_input : str) (session : dict) :
  dict_get (u "birthdaytype") session = Some (u "음력") ->
  exists r,
    parse_and_store_user_info w user_input session = Some r
    /\ dict_get (u "birthdaytype") r = Some (u "음력").
Proof.
  intros H. destruct (parse_spec w user_input session) as (r & E & Hr).
  exists r. split; [exact E|].
  rewrite Hr. unfold merged, dict_get_default. rewrite H.
  change (str_eqb (u "birthdaytype") (u "gochradatetime")) with false.
  rewrite str_eqb_refl. cbv iota.
  destruct (py_in (u "음력") user_input); reflexivity.
Qed.

Lemma lunar_is_kept_witness :
  dict_get (u "birthdaytype") [(u "birthdaytype", u "음력")]
  = Some (u "음력")
  /\ exists r,
       parse_and_store_user_info offline (u "양력 생일이에요")
         [(u "birthdaytype", u "음력")] = Some r
       /\ dict_get (u "birthdaytype") r = Some (u "음력").
Proof.
  split; [reflexivity|].
  apply (lunar_is_kept offline (u "양력 생일이에요")
           [(u "birthdaytype", u "음력")]).
  reflexivity.
Defined.

(** C6.  For every prior session and message the merge never raises and
    keeps every field whose extractor found nothing: without a date match
    datetime is unchanged (with or without a time match), without a place
    match place and coordinates are unchanged, without a gender match
    usergender is unchanged; birthdaytype and gochradatetime are computed
    anew; every other key is untouched and no key is removed. *)
Theorem merge_frame (w : World) (user_input : str) (session : dict) :
  exists r,
    parse_and_store_user_info w user_input session = Some r
    /\ (search date_re user_input = None ->
        dict_get (u "datetime") r = dict_get (u "datetime") session)
    /\ (extract_place user_input = None ->
        dict_get (u "place") r = dict_get (u "place") session
        /\ dict_get (u "coordinates") r
           = dict_get (u "coordinates") session)
    /\ (extract_gender w user_input = None ->
        dict_get (u "usergender") r = dict_get (u "usergender") session)
    /\ dict_get (u "birthdaytype") r
       = Some (if py_in (u "음력") user_input then u "음력"
               else dict_get_default (u "birthdaytype") (u "양력") session)
    /\ dict_get (u "gochradatetime") r
       = Some (resolve_gochra_datetime w user_input)
    /\ (forall k,
          In k [u "datetime"; u "place"; u "coordinates"; u "usergender";
                u "birthdaytype"; u "gochradatetime"]
          \/ dict_get k r = dict_get k session)
    /\ (forall k, dict_mem k session = true -> dict_mem k r = true).
Proof.
  destruct (parse_spec w user_input session) as (r & E & Hr).
  exists r. split; [exact E|].
  repeat split.
  - intros H. rewrite Hr. unfold merged. rewrite H. reflexivity.
  - rewrite Hr. unfold merged. rewrite H. reflexivity.
  - rewrite Hr. unfold merged. rewrite H. reflexivity.
  - intros H. rewrite Hr. unfold merged. rewrite H. reflexivity.
  - rewrite Hr. reflexivity.
  - rewrite Hr. reflexivity.
  - intros k. rewrite Hr. unfold merged.
    repeat match goal with
    | |- context [str_eqb k ?key] =>
        destruct (str_eqb k key) eqn:?;
        [left;
         match goal with
         | K : str_eqb _ _ = true |- _ =>
             apply str_eqb_eq in K; subst k; simpl; tauto
         end|]
    end.
    right. reflexivity.
  - intros k Hk. unfold dict_mem in *. rewrite Hr. unfold merged.
    destruct (dict_get k session) as [v|]; [|discriminate].
    destruct (str_eqb k (u "gochradatetime")); [reflexivity|].
    destruct (str_eqb k (u "birthdaytype")); [reflexivity|].
    destruct (str_eqb k (u "usergender"));
      [destruct (extract_gender w user_input) as [[|]|]; reflexivity|].
    destruct (str_eqb k (u "coordinates"));
      [destruct (extract_place user_input) as [[|]|]; reflexivity|].
    destruct (str_eqb k (u "place"));
      [destruct (extract_place user_input) as [[|]|]; reflexivity|].
    destruct (str_eqb k (u "datetime")); [|reflexivity].
    destruct (search date_re user_input) as [dm|] eqn:Ed; [|reflexivity].
    destruct (datetime_text_total user_input dm Ed) as [text ->].
    reflexivity.
Qed.

Lemma merge_place_coordinates (w : World) (user_input : str)
    (session r : dict) :
  dict_mem (u "place") session = dict_mem (u "coordinates") session ->
  parse_and_store_user_info w user_input session = Some r ->
  dict_mem (u "place") r = dict_mem (u "coordinates") r.
Proof.
  intros H E. destruct (parse_spec w user_input session) as (r' & E' & Hr).
  rewrite E in E'. injection E' as <-.
  unfold dict_mem in *. rewrite !Hr. unfold merged.
  change (str_eqb (u "place") (u "gochradatetime")) with false.
  change (str_eqb (u "place") (u "birthdaytype")) with false.
  change (str_eqb (u "place") (u "usergender")) with false.
  change (str_eqb (u "place") (u "coordinates")) with false.
  change (str_eqb (u "coordinates") (u "gochradatetime")) with false.
  change (str_eqb (u "coordinates") (u "birthdaytype")) with false.
  change (str_eqb (u "coordinates") (u "usergender")) with false.
  rewrite !str_eqb_refl. cbv iota.
  destruct (extract_place user_input) as [[|c p]|]; try exact H.
  reflexivity.
Qed.

(** C9.  In every session reached from the opening of a conversation by
    any sequence of turns, the fields hold the key place if and only if
    they hold the key coordinates; hence the Missing-Field Validator never
    lists the coordinates prompt without the place prompt. *)
Theorem place_iff_coordinates (turns : list (World * str)) :
  dict_mem (u "place") (user_info (converse turns opened))
  = dict_mem (u "coordinates") (user_info (converse turns opened))
  /\ exists qs,
       check_missing_fields (user_info (converse turns opened)) = Some qs
       /\ (In (u "🌐 출생지 정보를 더 정확히 알려주세요.") qs ->
           In (u "📍 태어난 지역을 알려주세요.") qs).
Proof.
  assert (H : dict_mem (u "place") (user_info (converse turns opened))
              = dict_mem (u "coordinates")
                  (user_info (converse turns opened))).
  { apply (converse_fields
             (fun d => dict_mem (u "place") d
                       = dict_mem (u "coordinates") d)).
    - intros w user_input session r Hs E.
      eapply merge_place_coordinates; eassumption.
    - reflexivity. }
  split; [exact H|].
  eexists. split; [apply missing_prompts|].
  rewrite H.
  destruct (dict_mem (u "coordinates") (user_info (converse turns opened))).
  - intros Hin. exfalso.
    destruct (dict_mem (u "datetime") (user_info (converse turns opened))),
             (dict_mem (u "usergender") (user_info (converse turns opened)));
      cbn [app] in Hin; apply In_existsb in Hin; vm_compute in Hin;
      discriminate Hin.
  - intros _. apply in_or_app. right. cbn [app]. left. reflexivity.
Qed.

(** C7.  In every conversation, a turn whose message contains a phrase of
    the general-mode toggle set leaves generalMode true, and it is still
    true after any further turns. *)
Theorem general_mode_sticky (s : user_session)
    (before after : list (World * str)) (w : World) (content : str) :
  is_general_mode_request content = true ->
  general_mode (converse (before ++ [(w, content)]) s) = true
  /\ general_mode (converse (before ++ (w, content) :: after) s) = true.
Proof.
  intros H.
  assert (Hnow : general_mode (converse (before ++ [(w, content)]) s)
                 = true).
  { rewrite converse_app. cbn [converse].
    rewrite handle_general_mode, (toggle_phrase_strip content H).
    reflexivity. }
  split; [exact Hnow|].
  change ((w, content) :: after) with ([(w, content)] ++ after).
  rewrite app_assoc, converse_app.
  apply converse_general_mode. exact Hnow.
Qed.

Lemma general_mode_sticky_witness :
  is_general_mode_request (u "  그냥 대화만 하자 ") = true
  /\ general_mode
       (converse ([(offline, u "안녕")]
                    ++ [(offline, u "  그냥 대화만 하자 ")]) opened) = true
  /\ general_mode
       (converse ([(offline, u "안녕")]
                    ++ (offline, u "  그냥 대화만 하자 ")
                         :: [(offline, u "오늘 운세 알려줘")]) opened)
     = true.
Proof.
  split; [reflexivity|].
  apply (general_mode_sticky opened [(offline, u "안녕")]
           [(offline, u "오늘 운세 알려줘")] offline
           (u "  그냥 대화만 하자 ")).
  reflexivity.
Defined.

(** C1, as the program has it.  In a turn that starts with generalMode
    true the session is left as it was, and: when the stripped message
    holds no toggle phrase, the language model is invoked with the
    stripped message alone and its answer is sent, nothing else; when it
    holds a toggle phrase, the toggle check, which comes first, answers
    with the notice and the language model is not invoked. *)
Theorem general_mode_turn (w : World) (content : str) (s : user_session) :
  general_mode s = true ->
  fst (handle w content s) = s
  /\ (is_general_mode_request (strip content) = false ->
      trace (snd (handle w content s))
      = LlmInvoke [HumanMessage (strip content)]
          :: match llm_invoke w [HumanMessage (strip content)] with
             | LlmContent response => [Send response]
             | LlmException _ => []
             end)
  /\ (is_general_mode_request (strip content) = true ->
      trace (snd (handle w content s)) = [Send general_mode_notice]).
Proof.
  intros H. unfold handle, done, uncaught. cbv zeta. rewrite H.
  destruct (is_general_mode_request (strip content)).
  - split; [|split; [discriminate|reflexivity]].
    destruct s as [f p g]. cbn in H. subst g. reflexivity.
  - destruct (llm_invoke w [HumanMessage (strip content)]);
      (split; [reflexivity|split; [reflexivity|discriminate]]).
Qed.

Lemma general_mode_turn_witness :
  general_mode {| user_info := []; pending_fields := [];
                  general_mode := true |} = true
  /\ fst (handle offline (u " 오늘 운세 알려줘 ")
            {| user_info := []; pending_fields := [];
               general_mode := true |})
     = {| user_info := []; pending_fields := []; general_mode := true |}
  /\ trace (snd (handle offline (u " 오늘 운세 알려줘 ")
                   {| user_info := []; pending_fields := [];
                      general_mode := true |}))
     = [LlmInvoke [HumanMessage (u "오늘 운세 알려줘")]; Send (u "ok")].
Proof.
  split; [reflexivity|].
  destruct (general_mode_turn offline (u " 오늘 운세 알려줘 ")
              {| user_info := []; pending_fields := [];
                 general_mode := true |} eq_refl) as (E & T & _).
  split; [exact E|]. exact (T eq_refl).
Defined.

(** C1 as stated fails: with generalMode already true, a message that
    holds a toggle phrase is answered by the notice and the language model
    is not invoked. *)
Lemma general_mode_turn_counterexample :
  general_mode {| user_info := []; pending_fields := [];
                  general_mode := true |} = true
  /\ trace (snd (handle offline (u "일반으로 해줘")
                   {| user_info := []; pending_fields := [];
                      general_mode := true |}))
     = [Send general_mode_notice]
  /\ existsb is_llm_invoke
       (trace (snd (handle offline (u "일반으로 해줘")
                      {| user_info := []; pending_fields := [];
                         general_mode := true |}))) = false.
Proof.
  split; [reflexivity|]. split; vm_compute; reflexivity.
Qed.

Lemma merged_datetime (w : World) (user_input : str) (session : dict) :
  merged w user_input session (u "datetime")
  = match search date_re user_input with
    | Some dm => datetime_text dm (search time_re user_input)
    | None => dict_get (u "datetime") session
    end.
Proof. reflexivity. Qed.

(** What a date match commits. *)
Lemma committed_datetime (user_input : str) (dm : groups) :
  search date_re user_input = Some dm ->
  exists y m d mv dv hv nv,
    dm = [(3%nat, d); (2%nat, m); (1%nat, y)]
    /\ digits 4 4 y /\ int m = Some mv /\ int d = Some dv
    /\ mv < 100 /\ dv < 100 /\ hv < 100 /\ nv < 100
    /\ datetime_text dm (search time_re user_input)
       = Some (iso_text y mv dv hv nv)
    /\ match search time_re user_input with
       | None => hv = 12 /\ nv = 0
       | Some g =>
           exists h ph,
             group 2 g = Some h /\ int h = Some ph
             /\ hv = committed_hour (group 1 g) ph
       end.
Proof.
  intros Hd. apply date_groups in Hd as (y & m & d & -> & Hy & Hm & Hd).
  destruct (datetime_text_spec y m d (search time_re user_input) Hy Hm Hd)
    as (mv & dv & hv & nv & Em & Ed & Hmv & Hdv & Hhv & Hnv & E & Ht).
  - intros g Hg. eapply time_groups, Hg.
  - exists y, m, d, mv, dv, hv, nv.
    repeat (split; [first [reflexivity|assumption]|]). exact Ht.
Qed.

Lemma merge_datetime_shape (w : World) (user_input : str)
    (session r : dict) :
  (forall v, dict_get (u "datetime") session = Some v ->
             kst_shape v = true) ->
  parse_and_store_user_info w user_input session = Some r ->
  forall v, dict_get (u "datetime") r = Some v -> kst_shape v = true.
Proof.
  intros Hs E v Hv.
  destruct (parse_spec w user_input session) as (r' & E' & Hr).
  rewrite E in E'. injection E' as <-.
  rewrite Hr, merged_datetime in Hv.
  destruct (search date_re user_input) as [dm|] eqn:Ed; [|apply Hs, Hv].
  destruct (committed_datetime user_input dm Ed)
    as (y & m & d & mv & dv & hv & nv & _ & Hy & _ & _ & Hmv & Hdv & Hhv
        & Hnv & Et & _).
  rewrite Et in Hv. injection Hv as <-.
  apply iso_text_shape; assumption.
Qed.

(** C2, as the program has it.  Whenever the date pattern matches, the
    merge commits under datetime a text laid out as
    YYYY-MM-DDTHH:MM:00+09:00: the four digit characters of the year as
    they were typed, two ASCII digits for each of month, day, hour and
    minute, seconds 00 and the offset +09:00; and in every session of a
    conversation the datetime field, once set, has this layout.  The
    numbers are not checked against the calendar or the clock. *)
Theorem datetime_layout :
  (forall (w : World) (user_input : str) (session : dict) (dm : groups),
      search date_re user_input = Some dm ->
      exists r v,
        parse_and_store_user_info w user_input session = Some r
        /\ dict_get (u "datetime") r = Some v
        /\ kst_shape v = true)
  /\ (forall (turns : list (World * str)) (v : str),
        dict_get (u "datetime") (user_info (converse turns opened)) = Some v ->
        kst_shape v = true).
Proof.
  split.
  - intros w user_input session dm Ed.
    destruct (parse_spec w user_input session) as (r & E & Hr).
    destruct (committed_datetime user_input dm Ed)
      as (y & m & d & mv & dv & hv & nv & _ & Hy & _ & _ & Hmv & Hdv & Hhv
          & Hnv & Et & _).
    exists r, (iso_text y mv dv hv nv).
    split; [exact E|]. split.
    + rewrite Hr, merged_datetime, Ed. exact Et.
    + apply iso_text_shape; assumption.
  - intros turns.
    apply (converse_fields
             (fun d => forall v, dict_get (u "datetime") d = Some v ->
                                 kst_shape v = true)).
    + intros w user_input session r Hs E.
      eapply merge_datetime_shape; eassumption.
    + intros v Hv. discriminate Hv.
Qed.

Lemma datetime_layout_witness :
  search date_re (u "1976년 4월 27일 14시 서울에서 출생")
  = Some [(3%nat, u "27"); (2%nat, u "4"); (1%nat, u "1976")]
  /\ (exists r v,
        parse_and_store_user_info offline
          (u "1976년 4월 27일 14시 서울에서 출생") [] = Some r
        /\ dict_get (u "datetime") r = Some v
        /\ kst_shape v = true)
  /\ dict_get (u "datetime")
       (user_info
          (converse [(offline, u "1976년 4월 27일 14시 서울에서 출생")]
             opened))
     = Some (u "1976-04-27T14:00:00+09:00")
  /\ kst_shape (u "1976-04-27T14:00:00+09:00") = true.
Proof.
  split; [vm_compute; reflexivity|]. split.
  - apply (proj1 datetime_layout offline
             (u "1976년 4월 27일 14시 서울에서 출생") []
             [(3%nat, u "27"); (2%nat, u "4"); (1%nat, u "1976")]).
    vm_compute. reflexivity.
  - split; [vm_compute; reflexivity|].
    apply (proj2 datetime_layout
             [(offline, u "1976년 4월 27일 14시 서울에서 출생")]
             (u "1976-04-27T14:00:00+09:00")).
    vm_compute. reflexivity.
Defined.

(** C2 as stated fails: the numbers are committed as typed, so a month 13,
    a day 45, an hour 25 and a minute 61 are stored, which is neither a
    date of the calendar nor a time of the 24-hour clock. *)
Lemma datetime_valid_counterexample :
  exists r,
    parse_and_store_user_info offline (u "2020년 13월 45일 25시 61분") []
    = Some r
    /\ dict_get (u "datetime") r = Some (u "2020-13-45T25:61:00+09:00")
    /\ kst_valid (u "2020-13-45T25:61:00+09:00") = false.
Proof.
  eexists. split; [vm_compute; reflexivity|].
  split; vm_compute; reflexivity.
Qed.

(** C3.  For every message with a date match and a time match, the hour
    committed is the parsed hour plus 12 when the marker captured is 오후
    and the parsed hour is below 12, and the parsed hour itself when the
    marker is 오전, when there is no marker, and when the marker is 오후
    with a parsed hour of 12 or more. *)
Theorem committed_hour_rule (w : World) (user_input : str) (session : dict)
    (dm tm : groups) :
  search date_re user_input = Some dm ->
  search time_re user_input = Some tm ->
  exists r y mv dv hour nv h ph,
    parse_and_store_user_info w user_input session = Some r
    /\ group 1 dm = Some y
    /\ group 2 tm = Some h /\ int h = Some ph
    /\ dict_get (u "datetime") r = Some (iso_text y mv dv hour nv)
    /\ hour < 100
    /\ (group 1 tm = Some (u "오후") -> ph < 12 -> hour = ph + 12)
    /\ (group 1 tm = Some (u "오후") -> 12 <= ph -> hour = ph)
    /\ (group 1 tm = Some (u "오전") -> hour = ph)
    /\ (group 1 tm = None -> hour = ph).
Proof.
  intros Ed Et.
  destruct (parse_spec w user_input session) as (r & E & Hr).
  destruct (committed_datetime user_input dm Ed)
    as (y & m & d & mv & dv & hv & nv & -> & Hy & _ & _ & Hmv & Hdv & Hhv
        & Hnv & Etext & Htm).
  rewrite Et in Htm. destruct Htm as (h & ph & E2 & Eh & ->).
  exists r, y, mv, dv, (committed_hour (group 1 tm) ph), nv, h, ph.
  split; [exact E|]. split; [reflexivity|].
  split; [exact E2|]. split; [exact Eh|].
  split; [rewrite Hr, merged_datetime, Ed; exact Etext|].
  split; [exact Hhv|].
  unfold committed_hour. repeat split.
  - intros -> H. apply N.ltb_lt in H. rewrite H. reflexivity.
  - intros -> H. apply N.ltb_ge in H. rewrite H. reflexivity.
  - intros ->. reflexivity.
  - intros ->. reflexivity.
Qed.

Lemma committed_hour_rule_witness :
  search date_re (u "2000년 1월 1일 오후 12시")
  = Some [(3%nat, u "1"); (2%nat, u "1"); (1%nat, u "2000")]
  /\ search time_re (u "2000년 1월 1일 오후 12시")
     = Some [(2%nat, u "12"); (1%nat, u "오후")]
  /\ exists r y mv dv hour nv h ph,
       parse_and_store_user_info offline (u "2000년 1월 1일 오후 12시") []
       = Some r
       /\ group 1 [(3%nat, u "1"); (2%nat, u "1"); (1%nat, u "2000")]
          = Some y
       /\ group 2 [(2%nat, u "12"); (1%nat, u "오후")] = Some h
       /\ int h = Some ph
       /\ dict_get (u "datetime") r = Some (iso_text y mv dv hour nv)
       /\ hour < 100
       /\ (group 1 [(2%nat, u "12"); (1%nat, u "오후")] = Some (u "오후") ->
           ph < 12 -> hour = ph + 12)
       /\ (group 1 [(2%nat, u "12"); (1%nat, u "오후")] = Some (u "오후") ->
           12 <= ph -> hour = ph)
       /\ (group 1 [(2%nat, u "12"); (1%nat, u "오후")] = Some (u "오전") ->
           hour = ph)
       /\ (group 1 [(2%nat, u "12"); (1%nat, u "오후")] = None ->
           hour = ph).
Proof.
  split; [vm_compute; reflexivity|].
  split; [vm_compute; reflexivity|].
  apply (committed_hour_rule offline (u "2000년 1월 1일 오후 12시") []
           [(3%nat, u "1"); (2%nat, u "1"); (1%nat, u "2000")]
           [(2%nat, u "12"); (1%nat, u "오후")]);
    vm_compute; reflexivity.
Defined.

(** 오후 12시 is committed as hour 12, 오후 3시 as hour 15, 오전 3시 and a
    bare 3시 as hour 03. *)
Example committed_hour_samples :
  map (fun text =>
         match parse_and_store_user_info offline text [] with
         | Some r => dict_get (u "datetime") r
         | None => None
         end)
    [u "2000년 1월 1일 오후 12시"; u "2000년 1월 1일 오후 3시";
     u "2000년 1월 1일 오전 3시"; u "2000년 1월 1일 3시"]
  = [Some (u "2000-01-01T12:00:00+09:00");
     Some (u "2000-01-01T15:00:00+09:00");
     Some (u "2000-01-01T03:00:00+09:00");
     Some (u "2000-01-01T03:00:00+09:00")].
Proof. vm_compute. reflexivity. Qed.

Lemma ascii_decimal_value (c : N) :
  is_ascii_digit c = true -> decimal_value c = Some (c - 48).
Proof.
  unfold is_ascii_digit. intros H.
  apply andb_true_iff in H as [H1 H2].
  apply N.leb_le in H1. apply N.leb_le in H2.
  assert (E : (48 <=? c) && (c <? 48 + 10) = true).
  { apply andb_true_iff. split; [apply N.leb_le|apply N.ltb_lt]; lia. }
  unfold decimal_value, nd_zeros. cbn [decimal_in]. rewrite E. reflexivity.
Qed.

Lemma int_two (a b : N) :
  int [a; b]
  = match decimal_value a, decimal_value b with
    | Some va, Some vb => Some (10 * va + vb)
    | _, _ => None
    end.
Proof.
  unfold int, int_digits.
  destruct (decimal_value a); [|reflexivity].
  destruct (decimal_value b); reflexivity.
Qed.

(** Two ASCII digits are their own zero-padded text. *)
Lemma fmt02_two_ascii (m : str) (mv : N) :
  forallb is_ascii_digit m = true -> length m = 2%nat ->
  int m = Some mv -> fmt02 mv = m.
Proof.
  intros Ha Hl Ei.
  destruct m as [|a [|b [|c m]]]; try discriminate Hl.
  cbn [forallb] in Ha. rewrite andb_true_r in Ha.
  apply andb_true_iff in Ha as [Ha Hb].
  rewrite int_two in Ei.
  rewrite (ascii_decimal_value a Ha), (ascii_decimal_value b Hb) in Ei.
  assert (Emv : mv = 10 * (a - 48) + (b - 48)) by congruence.
  clear Ei. subst mv.
  unfold is_ascii_digit in Ha, Hb.
  apply andb_true_iff in Ha as [Ha1 Ha2].
  apply andb_true_iff in Hb as [Hb1 Hb2].
  apply N.leb_le in Ha1, Ha2, Hb1, Hb2.
  rewrite fmt02_small by lia.
  assert (Eq : (10 * (a - 48) + (b - 48)) / 10 = a - 48).
  { symmetry. apply (N.div_unique _ 10 (a - 48) (b - 48)); lia. }
  assert (Er : (10 * (a - 48) + (b - 48)) mod 10 = b - 48).
  { symmetry. apply (N.mod_unique _ 10 (a - 48) (b - 48)); lia. }
  rewrite Eq, Er. f_equal; [lia|]. f_equal. lia.
Qed.

(** C4, as the program has it.  For every message in which a date written
    YYYY년 MM월 DD일 is the leftmost match of the date pattern and which
    has no time expression, the merge sets datetime to the year, the
    zero-padded month and day and the time 12:00, as
    YYYY-MM-DDT12:00:00+09:00. *)
Theorem date_only_defaults_to_noon (w : World) (session : dict)
    (pre y m d suf : str) :
  digits 4 4 y -> digits 1 2 m -> digits 1 2 d ->
  starts_before date_re (length pre)
    (pre ++ y ++ u "년 " ++ m ++ u "월 " ++ d ++ u "일" ++ suf) = false ->
  search time_re (pre ++ y ++ u "년 " ++ m ++ u "월 " ++ d ++ u "일" ++ suf)
  = None ->
  exists r mv dv,
    parse_and_store_user_info w
      (pre ++ y ++ u "년 " ++ m ++ u "월 " ++ d ++ u "일" ++ suf) session
    = Some r
    /\ int m = Some mv /\ int d = Some dv
    /\ dict_get (u "datetime") r
       = Some (y ++ u "-" ++ fmt02 mv ++ u "-" ++ fmt02 dv
                 ++ u "T12:00:00+09:00")
    /\ (forallb is_ascii_digit m = true -> length m = 2%nat ->
        fmt02 mv = m)
    /\ (forallb is_ascii_digit d = true -> length d = 2%nat ->
        fmt02 dv = d).
Proof.
  intros Hy Hm Hd Hpre Ht.
  set (msg := pre ++ y ++ u "년 " ++ m ++ u "월 " ++ d ++ u "일" ++ suf)
    in *.
  assert (Ed : search date_re msg
               = Some [(3%nat, d); (2%nat, m); (1%nat, y)]).
  { rewrite (search_skip date_re (length pre) msg Hpre).
    unfold msg. rewrite skipn_app, skipn_all, Nat.sub_diag.
    cbn [skipn app]. apply search_here, date_re_here; assumption. }
  destruct (parse_spec w msg session) as (r & E & Hr).
  destruct (datetime_text_spec y m d (search time_re msg) Hy Hm Hd)
    as (mv & dv & hv & nv & Em & Edv & _ & _ & _ & _ & Etext & Hnoon).
  { intros g Hg. eapply time_groups, Hg. }
  rewrite Ht in Etext, Hnoon. destruct Hnoon as [-> ->].
  exists r, mv, dv.
  split; [exact E|]. split; [exact Em|]. split; [exact Edv|].
  split; [rewrite Hr, merged_datetime, Ed, Ht; exact Etext|].
  split; intros Ha Hl; eapply fmt02_two_ascii; eassumption.
Qed.

Lemma date_only_defaults_to_noon_witness :
  digits 4 4 (u "1976") /\ digits 1 2 (u "04") /\ digits 1 2 (u "27")
  /\ starts_before date_re (length (u "제 생일은 "))
       (u "제 생일은 " ++ u "1976" ++ u "년 " ++ u "04" ++ u "월 "
          ++ u "27" ++ u "일" ++ u " 입니다") = false
  /\ search time_re
       (u "제 생일은 " ++ u "1976" ++ u "년 " ++ u "04" ++ u "월 "
          ++ u "27" ++ u "일" ++ u " 입니다") = None
  /\ exists r mv dv,
       parse_and_store_user_info offline
         (u "제 생일은 " ++ u "1976" ++ u "년 " ++ u "04" ++ u "월 "
            ++ u "27" ++ u "일" ++ u " 입니다") [] = Some r
       /\ int (u "04") = Some mv /\ int (u "27") = Some dv
       /\ dict_get (u "datetime") r
          = Some (u "1976" ++ u "-" ++ fmt02 mv ++ u "-" ++ fmt02 dv
                    ++ u "T12:00:00+09:00")
       /\ (forallb is_ascii_digit (u "04") = true ->
           length (u "04") = 2%nat -> fmt02 mv = u "04")
       /\ (forallb is_ascii_digit (u "27") = true ->
           length (u "27") = 2%nat -> fmt02 dv = u "27").
Proof.
  assert (H4 : digits 4 4 (u "1976")) by (split; [reflexivity|simpl; lia]).
  assert (Hm : digits 1 2 (u "04")) by (split; [reflexivity|simpl; lia]).
  assert (Hd : digits 1 2 (u "27")) by (split; [reflexivity|simpl; lia]).
  split; [exact H4|]. split; [exact Hm|]. split; [exact Hd|].
  split; [vm_compute; reflexivity|]. split; [vm_compute; reflexivity|].
  apply (date_only_defaults_to_noon offline [] (u "제 생일은 ") (u "1976")
           (u "04") (u "27") (u " 입니다") H4 Hm Hd);
    vm_compute; reflexivity.
Defined.

(** C4 as stated fails: of two dates in a message the leftmost is
    committed, so a well-formed date further right is not. *)
Lemma date_only_counterexample :
  digits 4 4 (u "1976") /\ digits 1 2 (u "04") /\ digits 1 2 (u "27")
  /\ search time_re
       (u "2000년 01월 01일 " ++ u "1976" ++ u "년 " ++ u "04" ++ u "월 "
          ++ u "27" ++ u "일" ++ []) = None
  /\ exists r,
       parse_and_store_user_info offline
         (u "2000년 01월 01일 " ++ u "1976" ++ u "년 " ++ u "04" ++ u "월 "
            ++ u "27" ++ u "일" ++ []) [] = Some r
       /\ dict_get (u "datetime") r = Some (u "2000-01-01T12:00:00+09:00")
       /\ dict_get (u "datetime") r <> Some (u "1976-04-27T12:00:00+09:00").
Proof.
  split; [split; [reflexivity|simpl; lia]|].
  split; [split; [reflexivity|simpl; lia]|].
  split; [split; [reflexivity|simpl; lia]|].
  split; [vm_compute; reflexivity|].
  eexists. split; [vm_compute; reflexivity|].
  split; [vm_compute; reflexivity|].
  vm_compute. discriminate.
Qed.

(** ** Further properties of the program *)

(** *** Field values kept through a conversation *)

Lemma converse_invariant (P : user_session -> Prop) :
  (forall w content s, P s -> P (fst (handle w content s))) ->
  forall turns s, P s -> P (converse turns s).
Proof.
  intros Hstep turns. induction turns as [|[w c] turns IH]; intros s H;
    [exact H|].
  cbn [converse]. apply IH, Hstep, H.
Qed.

Lemma merged_place (w : World) (user_input : str) (session : dict) :
  merged w user_input session (u "place")
  = match extract_place user_input with
    | Some (c :: p) => Some (c :: p)
    | _ => dict_get (u "place") session
    end.
Proof. reflexivity. Qed.

Lemma merged_coordinates (w : World) (user_input : str) (session : dict) :
  merged w user_input session (u "coordinates")
  = match extract_place user_input with
    | Some (c :: p) => Some (get_coordinates w (c :: p))
    | _ => dict_get (u "coordinates") session
    end.
Proof. reflexivity. Qed.

Lemma merged_usergender (w : World) (user_input : str) (session : dict) :
  merged w user_input session (u "usergender")
  = match extract_gender w user_input with
    | Some (c :: g) => Some (c :: g)
    | _ => dict_get (u "usergender") session
    end.
Proof. reflexivity. Qed.

Lemma merged_birthdaytype (w : World) (user_input : str) (session : dict) :
  merged w user_input session (u "birthdaytype")
  = Some (if py_in (u "음력") user_input then u "음력"
          else dict_get_default (u "birthdaytype") (u "양력") session).
Proof. reflexivity. Qed.

Lemma merged_gochradatetime (w : World) (user_input : str)
    (session : dict) :
  merged w user_input session (u "gochradatetime")
  = Some (resolve_gochra_datetime w user_input).
Proof. reflexivity. Qed.

Lemma extract_gender_values (w : World) (text g : str) :
  extract_gender w text = Some g -> g = u "남성" \/ g = u "여성".
Proof.
  unfold extract_gender. cbv zeta.
  destruct (existsb _ _); [intros H; injection H as <-; left; reflexivity|].
  destruct (existsb _ _); [intros H; injection H as <-; right; reflexivity|].
  discriminate.
Qed.

(** X1.  In every session of a conversation the usergender field, once
    set, is 남성 or 여성. *)
Theorem usergender_values (turns : list (World * str)) (v : str) :
  dict_get (u "usergender") (user_info (converse turns opened)) = Some v ->
  v = u "남성" \/ v = u "여성".
Proof.
  revert v.
  apply (converse_fields
           (fun d => forall v, dict_get (u "usergender") d = Some v ->
                               v = u "남성" \/ v = u "여성")).
  - intros w user_input session r Hs E v Hv.
    destruct (parse_spec w user_input session) as (r' & E' & Hr).
    rewrite E in E'. injection E' as <-.
    rewrite Hr, merged_usergender in Hv.
    destruct (extract_gender w user_input) as [[|c g]|] eqn:Eg;
      try (apply Hs, Hv).
    injection Hv as <-. eapply extract_gender_values, Eg.
  - intros v Hv. discriminate Hv.
Qed.

Lemma usergender_values_witness :
  dict_get (u "usergender")
    (user_info (converse [(offline, u "오늘 운세 알려줘 여자입니다")] opened))
  = Some (u "여성")
  /\ (u "여성" = u "남성" \/ u "여성" = u "여성").
Proof.
  split; [vm_compute; reflexivity|].
  apply (usergender_values [(offline, u "오늘 운세 알려줘 여자입니다")]).
  vm_compute. reflexivity.
Defined.

(** X2.  In every session of a conversation the birthdaytype field, once
    set, is 양력 or 음력. *)
Theorem birthdaytype_values (turns : list (World * str)) (v : str) :
  dict_get (u "birthdaytype") (user_info (converse turns opened)) = Some v ->
  v = u "양력" \/ v = u "음력".
Proof.
  revert v.
  apply (converse_fields
           (fun d => forall v, dict_get (u "birthdaytype") d = Some v ->
                               v = u "양력" \/ v = u "음력")).
  - intros w user_input session r Hs E v Hv.
    destruct (parse_spec w user_input session) as (r' & E' & Hr).
    rewrite E in E'. injection E' as <-.
    rewrite Hr, merged_birthdaytype in Hv. injection Hv as <-.
    destruct (py_in (u "음력") user_input); [right; reflexivity|].
    unfold dict_get_default.
    destruct (dict_get (u "birthdaytype") session) as [b|] eqn:Eb;
      [apply Hs; reflexivity|left; reflexivity].
  - intros v Hv. discriminate Hv.
Qed.

Lemma birthdaytype_values_witness :
  dict_get (u "birthdaytype")
    (user_info (converse [(offline, u "오늘 운세 알려줘")] opened))
  = Some (u "양력")
  /\ (u "양력" = u "양력" \/ u "양력" = u "음력").
Proof.
  split; [vm_compute; reflexivity|].
  apply (birthdaytype_values [(offline, u "오늘 운세 알려줘")]).
  vm_compute. reflexivity.
Defined.

Lemma merge_keys (w : World) (user_input : str) (session r : dict)
    (k : str) :
  parse_and_store_user_info w user_input session = Some r ->
  dict_mem k r = true -> In k field_names \/ dict_mem k session = true.
Proof.
  intros E Hk.
  destruct (parse_spec w user_input session) as (r' & E' & Hr).
  rewrite E in E'. injection E' as <-.
  unfold dict_mem in *. rewrite Hr in Hk. unfold merged in Hk.
  unfold field_names.
  repeat match type of Hk with
  | context [str_eqb k ?key] =>
      destruct (str_eqb k key) eqn:?;
      [left;
       match goal with
       | K : str_eqb _ _ = true |- _ =>
           apply str_eqb_eq in K; rewrite K; cbn [In]; tauto
       end|]
  end.
  right. exact Hk.
Qed.

(** X3.  In every session of a conversation the keys of the fields are
    among datetime, place, coordinates, usergender, birthdaytype and
    gochradatetime. *)
Theorem fields_keys_known (turns : list (World * str)) (k : str) :
  dict_mem k (user_info (converse turns opened)) = true ->
  In k field_names.
Proof.
  revert k.
  apply (converse_fields
           (fun d => forall k, dict_mem k d = true -> In k field_names)).
  - intros w user_input session r Hs E k Hk.
    destruct (merge_keys w user_input session r k E Hk) as [H|H];
      [exact H|apply Hs, H].
  - intros k Hk. discriminate Hk.
Qed.

Lemma fields_keys_known_witness :
  dict_mem (u "gochradatetime")
    (user_info (converse [(offline, u "오늘 운세 알려줘")] opened)) = true
  /\ In (u "gochradatetime") field_names.
Proof.
  split; [vm_compute; reflexivity|].
  apply (fields_keys_known [(offline, u "오늘 운세 알려줘")]).
  vm_compute. reflexivity.
Defined.

(** X4.  In every session of a conversation the fields are still empty or
    hold both birthdaytype and gochradatetime: the two defaulted fields
    are present from the first merge on. *)
Theorem defaults_present (turns : list (World * str)) :
  user_info (converse turns opened) = []
  \/ (dict_mem (u "birthdaytype") (user_info (converse turns opened)) = true
      /\ dict_mem (u "gochradatetime") (user_info (converse turns opened))
         = true).
Proof.
  apply (converse_fields
           (fun d => d = []
                     \/ (dict_mem (u "birthdaytype") d = true
                         /\ dict_mem (u "gochradatetime") d = true))).
  - intros w user_input session r _ E. right.
    destruct (parse_spec w user_input session) as (r' & E' & Hr).
    rewrite E in E'. injection E' as <-.
    unfold dict_mem.
    rewrite !Hr, merged_birthdaytype, merged_gochradatetime.
    split; reflexivity.
  - left. reflexivity.
Qed.

(** *** The extractors *)

Lemma py_in_trans (a b s : str) :
  py_in a b = true -> py_in b s = true -> py_in a s = true.
Proof.
  intros Hab Hbs.
  apply py_in_elim in Hab as (x & y & ->).
  apply py_in_elim in Hbs as (x' & y' & ->).
  replace (x' ++ (x ++ a ++ y) ++ y') with ((x' ++ x) ++ a ++ (y ++ y'))
    by (rewrite <- !app_assoc; reflexivity).
  apply py_in_intro.
Qed.

(** X5.  The male word list is tried first and holds [man] and [male]:
    every message whose lower-cased text contains [woman] or [female] is
    read as 남성, so these two words of the female list never take
    effect. *)
Theorem extract_gender_shadowed (w : World) (text : str) :
  py_in (u "woman") (py_lower w text) = true
  \/ py_in (u "female") (py_lower w text) = true ->
  extract_gender w text = Some (u "남성").
Proof.
  intros H. unfold extract_gender. cbv zeta.
  assert (E : existsb (fun word => py_in word (py_lower w text))
                [u "남성"; u "남자"; u "남"; u "man"; u "male"; u "boy"]
              = true).
  { apply existsb_exists. destruct H as [H|H].
    - exists (u "man"). split; [cbn [In]; tauto|].
      apply (py_in_trans _ (u "woman")); [reflexivity|exact H].
    - exists (u "male"). split; [cbn [In]; tauto|].
      apply (py_in_trans _ (u "female")); [reflexivity|exact H]. }
  rewrite E. reflexivity.
Qed.

Lemma extract_gender_shadowed_witness :
  (py_in (u "woman") (py_lower offline (u "I am a Woman")) = true
   \/ py_in (u "female") (py_lower offline (u "I am a Woman")) = true)
  /\ extract_gender offline (u "I am a Woman") = Some (u "남성").
Proof.
  assert (H : py_in (u "woman") (py_lower offline (u "I am a Woman")) = true
              \/ py_in (u "female") (py_lower offline (u "I am a Woman"))
                 = true) by (left; vm_compute; reflexivity).
  split; [exact H|].
  apply (extract_gender_shadowed offline (u "I am a Woman") H).
Defined.

Lemma space_not_letter (c : N) :
  is_space c = true -> hangul_or_latin c = false.
Proof.
  unfold is_space, hangul_or_latin. intros H.
  destruct (((44032 <=? c) && (c <=? 55203) || (97 <=? c) && (c <=? 122)
             || (65 <=? c) && (c <=? 90))) eqn:E; [|reflexivity].
  rewrite ?orb_true_iff, ?andb_true_iff, ?N.leb_le, ?N.eqb_eq in H.
  rewrite ?orb_true_iff, ?andb_true_iff, ?N.leb_le in E.
  lia.
Qed.

(** X6.  A place that [extract_place] returns is never empty and consists
    of Hangul syllables and ASCII letters only, so the test [if place:]
    fails only when nothing was extracted. *)
Theorem extract_place_letters (text p : str) :
  extract_place text = Some p ->
  p <> [] /\ forallb hangul_or_latin p = true.
Proof.
  unfold extract_place.
  destruct (search place_re text) as [g|] eqn:Es.
  - intros Hg. apply search_inv in Es as (pre & a & rest & _ & M).
    unfold place_re in M. cbn [cat] in M. invert_matches;
      cbn [group Nat.eqb] in Hg; injection Hg as <-;
      (split; [intros ->; simpl in *; lia|assumption]).
  - intros Hf. apply find_some in Hf as [Hin _].
    assert (Hall : forallb (fun q => match q with [] => false | _ => true end
                                     && forallb hangul_or_latin q)
                     KNOWN_PLACES = true) by (vm_compute; reflexivity).
    rewrite forallb_forall in Hall. apply Hall in Hin.
    apply andb_true_iff in Hin as [Hne Hl].
    split; [intros ->; discriminate Hne|exact Hl].
Qed.

Lemma extract_place_letters_witness :
  extract_place (u "부산 사는 사람") = Some (u "부산")
  /\ u "부산" <> [] /\ forallb hangul_or_latin (u "부산") = true.
Proof.
  split; [vm_compute; reflexivity|].
  apply (extract_place_letters (u "부산 사는 사람") (u "부산")).
  vm_compute. reflexivity.
Defined.

(** X7.  The name group is greedy: when a message starts with a name
    followed by 에서, then blanks, then one of 에서, 출생, 태어났, 태어난, the
    place extracted is the name with 에서 attached. *)
Theorem extract_place_takes_particle (name sp suffix rest : str) :
  forallb hangul_or_latin name = true ->
  sp <> [] -> forallb is_space sp = true ->
  In suffix [u "에서"; u "출생"; u "태어났"; u "태어난"] ->
  extract_place (name ++ u "에서" ++ sp ++ suffix ++ rest)
  = Some (name ++ u "에서").
Proof.
  intros Hn Hsp Hs Hsuf.
  assert (Hm : exists x,
             match_here place_re (name ++ u "에서" ++ sp ++ suffix ++ rest)
             = Some [(2%nat, x); (1%nat, name ++ u "에서")]).
  { destruct sp as [|c sp]; [congruence|].
    assert (Hc : is_space c = true).
    { cbn [forallb] in Hs. apply andb_true_iff in Hs as [H _]. exact H. }
    cbn [In] in Hsuf.
    destruct Hsuf as [<-|[<-|[<-|[<-|[]]]]];
      eexists; unfold match_here, place_re; cbn [cat];
      rewrite app_assoc, rmatch_seq;
      (apply rmatch_grp_rep_greedy;
       [rewrite forallb_app, Hn; reflexivity
       |cbn [app stops]; rewrite (space_not_letter c Hc); reflexivity
       |rewrite length_app; simpl; lia
       |exact I
       |]);
      rewrite rmatch_seq;
      (apply rmatch_rep_greedy;
       [exact Hs|reflexivity|simpl; lia|exact I|]);
      cbn [rmatch].
    - rewrite drop_prefix_app. reflexivity.
    - change (drop_prefix (u "에서") (u "출생" ++ rest)) with (@None str).
      rewrite drop_prefix_app. reflexivity.
    - change (drop_prefix (u "에서") (u "태어났" ++ rest)) with (@None str).
      change (drop_prefix (u "출생") (u "태어났" ++ rest)) with (@None str).
      rewrite drop_prefix_app. reflexivity.
    - change (drop_prefix (u "에서") (u "태어난" ++ rest)) with (@None str).
      change (drop_prefix (u "출생") (u "태어난" ++ rest)) with (@None str).
      change (drop_prefix (u "태어났") (u "태어난" ++ rest)) with (@None str).
      rewrite drop_prefix_app. reflexivity. }
  destruct Hm as [x Hm]. unfold extract_place.
  rewrite (search_here _ _ _ Hm). reflexivity.
Qed.

Lemma extract_place_takes_particle_witness :
  forallb hangul_or_latin (u "서울") = true
  /\ u " " <> [] /\ forallb is_space (u " ") = true
  /\ In (u "출생") [u "에서"; u "출생"; u "태어났"; u "태어난"]
  /\ extract_place (u "서울" ++ u "에서" ++ u " " ++ u "출생" ++ u "한 여자")
     = Some (u "서울" ++ u "에서").
Proof.
  assert (H1 : forallb hangul_or_latin (u "서울") = true) by reflexivity.
  assert (H2 : u " " <> []) by discriminate.
  assert (H3 : forallb is_space (u " ") = true) by reflexivity.
  assert (H4 : In (u "출생") [u "에서"; u "출생"; u "태어났"; u "태어난"])
    by (right; left; reflexivity).
  repeat (split; [assumption|]).
  apply (extract_place_takes_particle (u "서울") (u " ") (u "출생")
           (u "한 여자") H1 H2 H3 H4).
Defined.

(** X8.  [truncate_text] returns at most [max_chars + 3] characters,
    leaves a text of at most [max_chars] characters as it is, and agrees
    with the text on its first [max_chars] characters. *)
Theorem truncate_text_bound (text : str) (max_chars : nat) :
  (length (truncate_text text max_chars) <= max_chars + 3)%nat
  /\ firstn max_chars (truncate_text text max_chars) = firstn max_chars text
  /\ ((length text <= max_chars)%nat -> truncate_text text max_chars = text)
  /\ ((max_chars < length text)%nat ->
      truncate_text text max_chars = firstn max_chars text ++ u "...").
Proof.
  unfold truncate_text.
  destruct (Nat.leb (length text) max_chars) eqn:E.
  - apply Nat.leb_le in E. repeat split; try reflexivity; lia.
  - apply Nat.leb_gt in E.
    assert (L : length (firstn max_chars text) = max_chars).
    { rewrite length_firstn. lia. }
    split; [|split; [|split]].
    + rewrite length_app, L. change (length (u "...")) with 3%nat. lia.
    + rewrite firstn_app, L, Nat.sub_diag, firstn_O, app_nil_r.
      apply firstn_firstn_min || (rewrite firstn_firstn; f_equal; lia).
    + lia.
    + reflexivity.
Qed.

(** *** Turns and what they emit *)

Lemma handle_pending (w : World) (content : str) (s : user_session) :
  pending_consistent s -> pending_consistent (fst (handle w content s)).
Proof.
  unfold pending_consistent. intros H.
  handle_cases;
    cbn [fst set_user_info set_pending_fields set_general_mode user_info
         pending_fields];
    try exact H;
    try match goal with
        | K : user_info _ = _ |- _ => rewrite K; exact H
        end;
    try match goal with
        | K : check_missing_fields _ = None |- _ =>
            rewrite missing_prompts in K; discriminate K
        end;
    try (left; reflexivity);
    try (right; assumption).
Qed.

(** X9.  In every session of a conversation the pending prompts are none,
    or exactly what the Missing-Field Validator returns for the stored
    fields. *)
Theorem pending_matches_validator (turns : list (World * str)) :
  pending_consistent (converse turns opened).
Proof.
  apply converse_invariant.
  - apply handle_pending.
  - left. reflexivity.
Qed.

Ltac in_cases H :=
  repeat (cbn [In app] in H;
          match type of H with
          | _ \/ _ => destruct H as [H|H]; [try discriminate H|]
          | False => contradiction
          end).

(** X10.  The astrology pipeline never sends the language model's answer:
    the only message it can send is the error notice, and only when the
    language model raised. *)
Theorem proceed_sends_only_errors (w : World) (payload : dict)
    (user_input content : str) :
  In (Send content) (trace (proceed_with_astrology w payload user_input)) ->
  exists msgs e,
    llm_invoke w msgs = LlmException e
    /\ content = u "⚠️ LLM 응답 중 오류가 발생했습니다: " ++ e.
Proof.
  unfold proceed_with_astrology. cbv zeta.
  destruct (call_astrology_api w payload) as [api_result|];
    [|cbn [trace]; intros H; in_cases H].
  destruct (llm_invoke w _) as [answer|e] eqn:El; cbn [trace]; intros H;
    in_cases H.
  injection H as <-. eexists _, e. split; [exact El|reflexivity].
Qed.

Lemma proceed_sends_only_errors_witness :
  In (Send (u "⚠️ LLM 응답 중 오류가 발생했습니다: timeout"))
    (trace (proceed_with_astrology llm_down [] (u "오늘 운세")))
  /\ exists msgs e,
       llm_invoke llm_down msgs = LlmException e
       /\ u "⚠️ LLM 응답 중 오류가 발생했습니다: timeout"
          = u "⚠️ LLM 응답 중 오류가 발생했습니다: " ++ e.
Proof.
  assert (H : In (Send (u "⚠️ LLM 응답 중 오류가 발생했습니다: timeout"))
                (trace (proceed_with_astrology llm_down [] (u "오늘 운세")))).
  { vm_compute. do 5 right. left. reflexivity. }
  split; [exact H|].
  apply (proceed_sends_only_errors llm_down [] (u "오늘 운세") _ H).
Defined.

Lemma proceed_posts (w : World) (payload p : dict) (user_input : str) :
  In (HttpPost p) (trace (proceed_with_astrology w payload user_input)) ->
  p = payload.
Proof.
  unfold proceed_with_astrology. cbv zeta.
  destruct (call_astrology_api w payload) as [api_result|].
  - destruct (llm_invoke w _); cbn [trace]; intros H; in_cases H;
      injection H as <-; reflexivity.
  - cbn [trace]. intros H. in_cases H. injection H as <-. reflexivity.
Qed.

Lemma proceed_gets (w : World) (payload : dict) (user_input q : str) :
  ~ In (HttpGet q) (trace (proceed_with_astrology w payload user_input)).
Proof.
  unfold proceed_with_astrology. cbv zeta.
  destruct (call_astrology_api w payload) as [api_result|].
  - destruct (llm_invoke w _); cbn [trace]; intros H; in_cases H.
  - cbn [trace]. intros H. in_cases H.
Qed.

Lemma parse_trace_gets (user_input : str) (e : event) :
  In e (parse_trace user_input) ->
  exists c p, extract_place user_input = Some (c :: p)
              /\ e = HttpGet (c :: p).
Proof.
  unfold parse_trace.
  destruct (extract_place user_input) as [[|c p]|]; intros H; in_cases H.
  exists c, p. split; [reflexivity|symmetry; exact H].
Qed.

Lemma required_present (payload : dict) :
  check_missing_fields payload = Some [] ->
  dict_mem (u "datetime") payload = true
  /\ dict_mem (u "place") payload = true
  /\ dict_mem (u "coordinates") payload = true
  /\ dict_mem (u "usergender") payload = true.
Proof.
  rewrite missing_prompts.
  destruct (dict_mem (u "datetime") payload),
           (dict_mem (u "place") payload),
           (dict_mem (u "coordinates") payload),
           (dict_mem (u "usergender") payload);
    intros H; try (vm_compute in H; discriminate H); repeat split.
Qed.

(** X11.  Whenever a turn posts to the astrology service, the payload is
    the field mapping the turn has just stored, and it holds all four
    required fields together with birthdaytype and gochradatetime. *)
Theorem post_needs_all_fields (w : World) (content : str)
    (s : user_session) (p : dict) :
  In (HttpPost p) (trace (snd (handle w content s))) ->
  p = user_info (fst (handle w content s))
  /\ forallb (fun k => dict_mem k p) field_names = true.
Proof.
  assert (Hall : forall ui session r,
             parse_and_store_user_info w ui session = Some r ->
             check_missing_fields r = Some [] ->
             forallb (fun k => dict_mem k r) field_names = true).
  { intros ui session r E Hc.
    destruct (required_present r Hc) as (H1 & H2 & H3 & H4).
    destruct (parse_spec w ui session) as (r' & E' & Hr).
    rewrite E in E'. injection E' as <-.
    unfold field_names. cbn [forallb]. rewrite H1, H2, H3, H4.
    unfold dict_mem.
    rewrite !Hr, merged_birthdaytype, merged_gochradatetime. reflexivity. }
  handle_cases; cbn [snd trace fst user_info set_user_info
                     set_pending_fields set_general_mode raised];
    intros H;
    try (in_cases H; fail);
    try (apply in_app_or in H as [H|H];
         [apply parse_trace_gets in H as (c & q & _ & H); discriminate H|]);
    try (in_cases H; fail);
    try (apply parse_trace_gets in H as (c & q & _ & H); discriminate H).
  all: apply proceed_posts in H; subst p; split; [reflexivity|].
  all: eapply Hall; eassumption.
Qed.

Lemma post_needs_all_fields_witness :
  In (HttpPost
        (user_info
           (fst (handle offline
                   (u "1976년 4월 27일 14시 서울에서 출생한 여자 운세")
                   opened))))
    (trace (snd (handle offline
                   (u "1976년 4월 27일 14시 서울에서 출생한 여자 운세")
                   opened)))
  /\ forallb
       (fun k =>
          dict_mem k
            (user_info
               (fst (handle offline
                       (u "1976년 4월 27일 14시 서울에서 출생한 여자 운세")
                       opened))))
       field_names = true.
Proof.
  assert (H : In (HttpPost
                    (user_info
                       (fst (handle offline
                               (u "1976년 4월 27일 14시 서울에서 출생한 여자 운세")
                               opened))))
                (trace (snd (handle offline
                               (u "1976년 4월 27일 14시 서울에서 출생한 여자 운세")
                               opened)))).
  { vm_compute. right. left. reflexivity. }
  split; [exact H|].
  exact (proj2 (post_needs_all_fields offline _ opened _ H)).
Defined.

Lemma parse_trace_count (user_input : str) :
  (length (filter is_http_get (parse_trace user_input)) <= 1)%nat
  /\ filter is_llm_invoke (parse_trace user_input) = []
  /\ filter is_http_post (parse_trace user_input) = [].
Proof.
  unfold parse_trace.
  destruct (extract_place user_input) as [[|c p]|]; cbn; repeat split; lia.
Qed.

Lemma proceed_count (w : World) (payload : dict) (user_input : str) :
  (length (filter is_llm_invoke
             (trace (proceed_with_astrology w payload user_input))) <= 1)%nat
  /\ (length (filter is_http_post
                (trace (proceed_with_astrology w payload user_input)))
      <= 1)%nat
  /\ filter is_http_get
       (trace (proceed_with_astrology w payload user_input)) = [].
Proof.
  unfold proceed_with_astrology. cbv zeta.
  destruct (call_astrology_api w payload) as [api_result|];
    [destruct (llm_invoke w _)|];
    cbn [trace filter app is_llm_invoke is_http_post is_http_get length];
    repeat split; lia.
Qed.

(** X12.  A turn invokes the language model at most once, posts to the
    astrology service at most once and queries the geocoding service at
    most once. *)
Theorem one_call_per_backend (w : World) (content : str)
    (s : user_session) :
  (length (filter is_llm_invoke (trace (snd (handle w content s))))
   <= 1)%nat
  /\ (length (filter is_http_post (trace (snd (handle w content s))))
      <= 1)%nat
  /\ (length (filter is_http_get (trace (snd (handle w content s))))
      <= 1)%nat.
Proof.
  handle_cases; cbn [snd trace];
    repeat rewrite filter_app; repeat rewrite length_app;
    match goal with
    | |- context [parse_trace ?ui] =>
        destruct (parse_trace_count ui) as (G1 & G2 & G3);
        try rewrite G2; try rewrite G3
    | _ => idtac
    end;
    match goal with
    | |- context [proceed_with_astrology ?a ?b ?c] =>
        destruct (proceed_count a b c) as (P1 & P2 & P3);
        try rewrite P3
    | _ => idtac
    end;
    cbn [filter app is_llm_invoke is_http_post is_http_get length];
    repeat split; lia.
Qed.

(** X13.  Whenever a turn queries the geocoding service, the query is the
    place the turn stores, and the coordinates it stores are the
    adapter's answer for that place. *)
Theorem geocode_query_is_place (w : World) (content : str)
    (s : user_session) (q : str) :
  In (HttpGet q) (trace (snd (handle w content s))) ->
  dict_get (u "place") (user_info (fst (handle w content s))) = Some q
  /\ dict_get (u "coordinates") (user_info (fst (handle w content s)))
     = Some (get_coordinates w q).
Proof.
  assert (Hall : forall ui session r,
             parse_and_store_user_info w ui session = Some r ->
             In (HttpGet q) (parse_trace ui) ->
             dict_get (u "place") r = Some q
             /\ dict_get (u "coordinates") r = Some (get_coordinates w q)).
  { intros ui session r E Hin.
    apply parse_trace_gets in Hin as (c & p & Ep & Hq).
    injection Hq as ->.
    destruct (parse_spec w ui session) as (r' & E' & Hr).
    rewrite E in E'. injection E' as <-.
    rewrite !Hr, merged_place, merged_coordinates, Ep.
    split; reflexivity. }
  handle_cases; cbn [snd trace fst user_info set_user_info
                     set_pending_fields set_general_mode raised];
    intros H;
    try (in_cases H; fail);
    try (apply in_app_or in H as [H|H];
         [|first [apply proceed_gets in H; contradiction
                 |in_cases H; fail]]);
    eapply Hall; eassumption.
Qed.

Lemma geocode_query_is_place_witness :
  In (HttpGet (u "부산"))
    (trace (snd (handle offline (u "부산 사람 운세 알려줘") opened)))
  /\ dict_get (u "place")
       (user_info (fst (handle offline (u "부산 사람 운세 알려줘") opened)))
     = Some (u "부산")
  /\ dict_get (u "coordinates")
       (user_info (fst (handle offline (u "부산 사람 운세 알려줘") opened)))
     = Some (get_coordinates offline (u "부산")).
Proof.
  assert (H : In (HttpGet (u "부산"))
                (trace (snd (handle offline (u "부산 사람 운세 알려줘")
                               opened)))).
  { vm_compute. left. reflexivity. }
  split; [exact H|].
  apply (geocode_query_is_place offline _ opened _ H).
Defined.

(** *** How merges compose *)

Lemma dict_set_noop (k v : str) (d : dict) :
  dict_get k d = Some v -> dict_set k v d = d.
Proof.
  induction d as [|[k' v'] d IH]; simpl; [discriminate|].
  destruct (str_eqb k k') eqn:E.
  - intros H. injection H as ->. apply str_eqb_eq in E. subst. reflexivity.
  - intros H. rewrite (IH H). reflexivity.
Qed.

(** X14.  Merging the same message again in the same world changes
    nothing: the result of a merge is a fixed point of that merge. *)
Theorem merge_idempotent (w : World) (user_input : str)
    (session r : dict) :
  parse_and_store_user_info w user_input session = Some r ->
  parse_and_store_user_info w user_input r = Some r.
Proof.
  intros E.
  destruct (parse_spec w user_input session) as (r' & E' & Hr).
  rewrite E in E'. injection E' as <-.
  pose proof (Hr (u "datetime")) as Hd. rewrite merged_datetime in Hd.
  pose proof (Hr (u "place")) as Hp. rewrite merged_place in Hp.
  pose proof (Hr (u "coordinates")) as Hc.
  rewrite merged_coordinates in Hc.
  pose proof (Hr (u "usergender")) as Hg. rewrite merged_usergender in Hg.
  pose proof (Hr (u "birthdaytype")) as Hb.
  rewrite merged_birthdaytype in Hb.
  pose proof (Hr (u "gochradatetime")) as Ho.
  rewrite merged_gochradatetime in Ho.
  unfold parse_and_store_user_info. cbv zeta.
  assert (E1 : match search date_re user_input with
               | Some dm =>
                   match datetime_text dm (search time_re user_input) with
                   | Some text => Some (dict_set (u "datetime") text r)
                   | None => None
                   end
               | None => Some r
               end = Some r).
  { destruct (search date_re user_input) as [dm|] eqn:Ed; [|reflexivity].
    destruct (datetime_text_total user_input dm Ed) as [text Et].
    rewrite Et in Hd |- *. rewrite (dict_set_noop _ _ _ Hd). reflexivity. }
  rewrite E1.
  assert (E2 : (if truthy (extract_place user_input)
                then match extract_place user_input with
                     | Some place =>
                         dict_set (u "coordinates") (get_coordinates w place)
                           (dict_set (u "place") place r)
                     | None => r
                     end
                else r) = r).
  { destruct (extract_place user_input) as [[|c p]|]; try reflexivity.
    cbn [truthy]. rewrite (dict_set_noop _ _ _ Hp).
    apply dict_set_noop, Hc. }
  rewrite E2.
  assert (E3 : (if truthy (extract_gender w user_input)
                then match extract_gender w user_input with
                     | Some gender => dict_set (u "usergender") gender r
                     | None => r
                     end
                else r) = r).
  { destruct (extract_gender w user_input) as [[|c g]|]; try reflexivity.
    cbn [truthy]. apply dict_set_noop, Hg. }
  rewrite E3.
  assert (E4 : dict_set (u "birthdaytype")
                 (if py_in (u "음력") user_input then u "음력"
                  else dict_get_default (u "birthdaytype") (u "양력") r) r
               = r).
  { apply dict_set_noop.
    destruct (py_in (u "음력") user_input); [exact Hb|].
    unfold dict_get_default at 1. rewrite Hb. reflexivity. }
  rewrite E4. rewrite (dict_set_noop _ _ _ Ho). reflexivity.
Qed.

Lemma merge_idempotent_witness :
  exists r,
    parse_and_store_user_info offline (u "1976년 4월 27일 부산 여자") []
    = Some r
    /\ parse_and_store_user_info offline (u "1976년 4월 27일 부산 여자") r
       = Some r.
Proof.
  eexists. split; [vm_compute; reflexivity|].
  apply (merge_idempotent offline (u "1976년 4월 27일 부산 여자") []).
  vm_compute. reflexivity.
Defined.

Lemma merge_keeps_keys (w : World) (user_input : str) (session r : dict)
    (k : str) :
  parse_and_store_user_info w user_input session = Some r ->
  dict_mem k session = true -> dict_mem k r = true.
Proof.
  intros E Hk.
  destruct (parse_spec w user_input session) as (r' & E' & Hr).
  rewrite E in E'. injection E' as <-.
  unfold dict_mem in *. rewrite Hr. unfold merged.
  destruct (dict_get k session) as [v|]; [|discriminate].
  destruct (str_eqb k (u "gochradatetime")); [reflexivity|].
  destruct (str_eqb k (u "birthdaytype")); [reflexivity|].
  destruct (str_eqb k (u "usergender"));
    [destruct (extract_gender w user_input) as [[|]|]; reflexivity|].
  destruct (str_eqb k (u "coordinates"));
    [destruct (extract_place user_input) as [[|]|]; reflexivity|].
  destruct (str_eqb k (u "place"));
    [destruct (extract_place user_input) as [[|]|]; reflexivity|].
  destruct (str_eqb k (u "datetime")); [|reflexivity].
  destruct (search date_re user_input) as [dm|] eqn:Ed; [|reflexivity].
  destruct (datetime_text_total user_input dm Ed) as [text ->].
  reflexivity.
Qed.

Lemma lookup_all_In (d : dict) (ks : list str) (vs : list str) (v : str) :
  lookup_all d ks = Some vs ->
  (In v vs <-> exists k, In k ks /\ dict_get k d = Some v).
Proof.
  revert vs. induction ks as [|k ks IH]; intros vs; cbn [lookup_all].
  - intros H. injection H as <-. split; [intros []|intros (k & [] & _)].
  - destruct (dict_get k d) as [x|] eqn:Ek; [|discriminate].
    destruct (lookup_all d ks) as [xs|]; [|discriminate].
    intros H. injection H as <-. specialize (IH xs eq_refl). split.
    + intros [<-|Hin].
      * exists k. split; [left; reflexivity|exact Ek].
      * apply IH in Hin as (k' & Hk' & E'). exists k'.
        split; [right; exact Hk'|exact E'].
    + intros (k' & [<-|Hk'] & E').
      * left. congruence.
      * right. apply IH. exists k'. split; assumption.
Qed.

(** X15.  A merge never brings a prompt back: every prompt the validator
    lists for the merged fields was already listed for the fields before
    the merge. *)
Theorem missing_never_grows (w : World) (user_input : str)
    (session : dict) :
  exists r before after,
    parse_and_store_user_info w user_input session = Some r
    /\ check_missing_fields session = Some before
    /\ check_missing_fields r = Some after
    /\ incl after before.
Proof.
  destruct (parse_spec w user_input session) as (r & E & _).
  exists r. eexists. eexists.
  split; [exact E|]. split; [apply missing_prompts|].
  split; [apply missing_prompts|].
  intros q Hq.
  pose proof (missing_prompts session) as Hs.
  pose proof (missing_prompts r) as Hr.
  unfold check_missing_fields in Hs, Hr.
  apply (lookup_all_In _ _ _ q Hr) in Hq as (k & Hk & Eq).
  apply (lookup_all_In _ _ _ q Hs). exists k. split; [|exact Eq].
  apply filter_In in Hk as [Hreq Hk]. apply filter_In. split; [exact Hreq|].
  destruct (dict_mem k session) eqn:Em; [|reflexivity].
  rewrite (merge_keeps_keys w user_input session r k E Em) in Hk.
  discriminate Hk.
Qed.

(** *** The date and time patterns *)

Lemma sep_not_decimal (cs : str) (c : N) :
  forallb (fun c => negb (is_decimal c)) cs = true ->
  one_of cs c = true -> is_decimal c = false.
Proof.
  intros H Hc. destruct (is_decimal c) eqn:E; [|reflexivity].
  rewrite (class_not_decimal cs H c E) in Hc. discriminate Hc.
Qed.

(** X16.  The date pattern accepts any non-empty runs of its separators:
    a four-digit year, a run of 년 - / . or blanks, a month of one or two
    digits, a run of 월 - / . or blanks and a day of one or two digits not
    followed by a digit are captured as year, month and day when no date
    match starts earlier in the message. *)
Theorem date_any_separators (pre y s1 m s2 d suf : str) :
  digits 4 4 y -> digits 1 2 m -> digits 1 2 d ->
  s1 <> [] -> forallb (one_of (u "년-/. ")) s1 = true ->
  s2 <> [] -> forallb (one_of (u "월-/. ")) s2 = true ->
  stops is_decimal suf = true ->
  starts_before date_re (length pre)
    (pre ++ y ++ s1 ++ m ++ s2 ++ d ++ suf) = false ->
  search date_re (pre ++ y ++ s1 ++ m ++ s2 ++ d ++ suf)
  = Some [(3%nat, d); (2%nat, m); (1%nat, y)].
Proof.
  intros [Hy [Hy1 Hy2]] [Hm [Hm1 Hm2]] [Hd [Hd1 Hd2]] N1 F1 N2 F2 Hsuf Hpre.
  rewrite (search_skip date_re (length pre) _ Hpre).
  rewrite skipn_app, skipn_all, Nat.sub_diag. cbn [skipn app].
  apply search_here.
  destruct m as [|m1 m]; [simpl in Hm1; lia|].
  destruct d as [|d1 d]; [simpl in Hd1; lia|].
  destruct s1 as [|c1 s1]; [congruence|].
  destruct s2 as [|c2 s2]; [congruence|].
  assert (Hm1d : is_decimal m1 = true).
  { cbn [forallb] in Hm. apply andb_true_iff in Hm as [H _]. exact H. }
  assert (Hd1d : is_decimal d1 = true).
  { cbn [forallb] in Hd. apply andb_true_iff in Hd as [H _]. exact H. }
  assert (Hc1 : is_decimal c1 = false).
  { cbn [forallb] in F1. apply andb_true_iff in F1 as [H _].
    apply (sep_not_decimal (u "년-/. ")); [reflexivity|exact H]. }
  assert (Hc2 : is_decimal c2 = false).
  { cbn [forallb] in F2. apply andb_true_iff in F2 as [H _].
    apply (sep_not_decimal (u "월-/. ")); [reflexivity|exact H]. }
  unfold match_here, date_re. cbn [cat].
  rewrite rmatch_seq.
  apply rmatch_grp_rep_greedy; [exact Hy| |exact Hy1|exact Hy2|].
  { cbn [app stops]. rewrite Hc1. reflexivity. }
  rewrite rmatch_seq.
  apply rmatch_rep_greedy; [exact F1| |simpl; lia|exact I|].
  { cbn [app stops].
    rewrite (class_not_decimal (u "년-/. ") eq_refl m1 Hm1d). reflexivity. }
  rewrite rmatch_seq.
  apply rmatch_grp_rep_greedy; [exact Hm| |exact Hm1|exact Hm2|].
  { cbn [app stops]. rewrite Hc2. reflexivity. }
  rewrite rmatch_seq.
  apply rmatch_rep_greedy; [exact F2| |simpl; lia|exact I|].
  { cbn [app stops].
    rewrite (class_not_decimal (u "월-/. ") eq_refl d1 Hd1d). reflexivity. }
  rewrite rmatch_seq.
  apply rmatch_grp_rep_greedy; [exact Hd|exact Hsuf|exact Hd1|exact Hd2|].
  cbn [rmatch]. apply backoff_first; [lia|reflexivity].
Qed.

Lemma date_any_separators_witness :
  digits 4 4 (u "1976") /\ digits 1 2 (u "4") /\ digits 1 2 (u "27")
  /\ u "-" <> [] /\ forallb (one_of (u "년-/. ")) (u "-") = true
  /\ u ". " <> [] /\ forallb (one_of (u "월-/. ")) (u ". ") = true
  /\ stops is_decimal (u "에 태어남") = true
  /\ starts_before date_re (length (u "생일 "))
       (u "생일 " ++ u "1976" ++ u "-" ++ u "4" ++ u ". " ++ u "27"
          ++ u "에 태어남") = false
  /\ search date_re
       (u "생일 " ++ u "1976" ++ u "-" ++ u "4" ++ u ". " ++ u "27"
          ++ u "에 태어남")
     = Some [(3%nat, u "27"); (2%nat, u "4"); (1%nat, u "1976")].
Proof.
  assert (H1 : digits 4 4 (u "1976")) by (split; [reflexivity|simpl; lia]).
  assert (H2 : digits 1 2 (u "4")) by (split; [reflexivity|simpl; lia]).
  assert (H3 : digits 1 2 (u "27")) by (split; [reflexivity|simpl; lia]).
  assert (H4 : u "-" <> []) by discriminate.
  assert (H5 : forallb (one_of (u "년-/. ")) (u "-") = true) by reflexivity.
  assert (H6 : u ". " <> []) by discriminate.
  assert (H7 : forallb (one_of (u "월-/. ")) (u ". ") = true)
    by reflexivity.
  assert (H8 : stops is_decimal (u "에 태어남") = true) by reflexivity.
  assert (H9 : starts_before date_re (length (u "생일 "))
                 (u "생일 " ++ u "1976" ++ u "-" ++ u "4" ++ u ". "
                    ++ u "27" ++ u "에 태어남") = false)
    by (vm_compute; reflexivity).
  repeat (split; [assumption|]).
  apply (date_any_separators (u "생일 ") (u "1976") (u "-") (u "4")
           (u ". ") (u "27") (u "에 태어남") H1 H2 H3 H4 H5 H6 H7 H8 H9).
Defined.

Lemma app_regroup (p a b c d e f r : str) :
  p ++ (a ++ b ++ c ++ d ++ e ++ f) ++ r
  = p ++ a ++ b ++ c ++ d ++ e ++ (f ++ r).
Proof. rewrite <- !app_assoc. reflexivity. Qed.

(** X17.  A date is extracted only from a complete year, month and day:
    whenever the date pattern matches, the message holds four digits, a
    non-empty run of 년 - / . or blanks, one or two digits, a non-empty run
    of 월 - / . or blanks and one or two digits in a row, and these digit
    groups are what is captured. *)
Theorem date_match_form (s : str) (g : groups) :
  search date_re s = Some g ->
  exists pre y s1 m s2 d rest,
    s = pre ++ y ++ s1 ++ m ++ s2 ++ d ++ rest
    /\ g = [(3%nat, d); (2%nat, m); (1%nat, y)]
    /\ digits 4 4 y /\ digits 1 2 m /\ digits 1 2 d
    /\ s1 <> [] /\ forallb (one_of (u "년-/. ")) s1 = true
    /\ s2 <> [] /\ forallb (one_of (u "월-/. ")) s2 = true.
Proof.
  intros H. apply search_inv in H as (pre & a & rest & Es & M).
  unfold date_re in M. cbn [cat] in M. invert_matches.
  exists pre. eexists _, _, _, _, _, _.
  split; [apply app_regroup|].
  split; [reflexivity|].
  unfold digits.
  repeat match goal with
         | |- _ /\ _ => split
         end;
    try assumption;
    intros ->; cbn [length] in *; lia.
Qed.

Lemma date_match_form_witness :
  search date_re (u "저는 1976/4/27 생")
  = Some [(3%nat, u "27"); (2%nat, u "4"); (1%nat, u "1976")]
  /\ exists pre y s1 m s2 d rest,
       u "저는 1976/4/27 생" = pre ++ y ++ s1 ++ m ++ s2 ++ d ++ rest
       /\ [(3%nat, u "27"); (2%nat, u "4"); (1%nat, u "1976")]
          = [(3%nat, d); (2%nat, m); (1%nat, y)]
       /\ digits 4 4 y /\ digits 1 2 m /\ digits 1 2 d
       /\ s1 <> [] /\ forallb (one_of (u "년-/. ")) s1 = true
       /\ s2 <> [] /\ forallb (one_of (u "월-/. ")) s2 = true.
Proof.
  split; [vm_compute; reflexivity|].
  apply (date_match_form (u "저는 1976/4/27 생")).
  vm_compute. reflexivity.
Defined.

Lemma datetime_text_minute (y m d : str) (g : groups) :
  digits 4 4 y -> digits 1 2 m -> digits 1 2 d -> time_captures g ->
  exists mv dv hv nv,
    datetime_text [(3%nat, d); (2%nat, m); (1%nat, y)] (Some g)
    = Some (iso_text y mv dv hv nv)
    /\ nv < 100
    /\ (group 3 g = None -> nv = 0)
    /\ (forall mm, group 3 g = Some mm -> int mm = Some nv).
Proof.
  intros Hy Hm Hd (h & E2 & Hh & H1 & H3).
  destruct (int_small m Hm) as (mv & Em & Hmv).
  destruct (int_small d Hd) as (dv & Ed & Hdv).
  destruct (int_small h Hh) as (ph & Eh & Hph).
  unfold datetime_text. cbn [group Nat.eqb]. rewrite E2.
  assert (Hmin : exists minute nv,
             (if truthy (group 3 g) then group 3 g else Some (u "00"))
             = Some minute /\ int minute = Some nv /\ nv < 100
             /\ (group 3 g = None -> nv = 0)
             /\ (forall mm, group 3 g = Some mm -> int mm = Some nv)).
  { destruct H3 as [E3|(mm & E3 & Hmm)]; rewrite E3.
    - exists (u "00"), 0.
      split; [reflexivity|]. split; [reflexivity|]. split; [reflexivity|].
      split; [reflexivity|]. intros mm Hmm. discriminate Hmm.
    - destruct (int_small mm Hmm) as (nv & En & Hnv).
      exists mm, nv. destruct Hmm as [_ [Hl _]].
      destruct mm as [|c mm]; [simpl in Hl; lia|].
      split; [reflexivity|]. split; [exact En|]. split; [exact Hnv|].
      split; [discriminate|]. intros mm' Hmm'. injection Hmm' as <-.
      exact En. }
  destruct Hmin as (minute & nv & -> & En & Hnv & Hnone & Hsome).
  assert (Hhour : exists hour hv,
             (if opt_eqb (group 1 g) (u "오후")
              then match int h with
                   | Some hv =>
                       Some (if hv <? 12 then str_of_int (hv + 12) else h)
                   | None => None
                   end
              else Some h) = Some hour
             /\ int hour = Some hv).
  { rewrite Eh. destruct (opt_eqb (group 1 g) (u "오후")).
    - destruct (ph <? 12) eqn:E12.
      + exists (str_of_int (ph + 12)), (ph + 12). split; [reflexivity|].
        apply int_str_of_int. apply N.ltb_lt in E12. lia.
      + exists h, ph. split; [reflexivity|exact Eh].
    - exists h, ph. split; [reflexivity|exact Eh]. }
  destruct Hhour as (hour & hv & -> & Ehour).
  cbn [fst snd]. rewrite Em, Ed, Ehour, En.
  exists mv, dv, hv, nv.
  split; [reflexivity|]. split; [exact Hnv|]. split; assumption.
Qed.

(** X18.  For every message with a date match and a time match, the
    minute committed is the parsed minute when the time expression has a
    minute part, and 00 when it has none. *)
Theorem committed_minute_rule (w : World) (user_input : str)
    (session : dict) (dm tm : groups) :
  search date_re user_input = Some dm ->
  search time_re user_input = Some tm ->
  exists r y mv dv hour minute,
    parse_and_store_user_info w user_input session = Some r
    /\ group 1 dm = Some y
    /\ dict_get (u "datetime") r = Some (iso_text y mv dv hour minute)
    /\ minute < 100
    /\ (group 3 tm = None -> minute = 0)
    /\ (forall mm, group 3 tm = Some mm -> int mm = Some minute).
Proof.
  intros Ed Et.
  destruct (parse_spec w user_input session) as (r & E & Hr).
  pose proof (time_groups _ _ Et) as Htm.
  apply date_groups in Ed as Hdm.
  destruct Hdm as (y & m & d & -> & Hy & Hm & Hd).
  destruct (datetime_text_minute y m d tm Hy Hm Hd Htm)
    as (mv & dv & hv & nv & Etext & Hnv & Hnone & Hsome).
  exists r, y, mv, dv, hv, nv.
  split; [exact E|]. split; [reflexivity|].
  split; [rewrite Hr, merged_datetime, Ed, Et; exact Etext|].
  split; [exact Hnv|]. split; assumption.
Qed.

Lemma committed_minute_rule_witness :
  search date_re (u "2000년 1월 1일 오전 9시 5분")
  = Some [(3%nat, u "1"); (2%nat, u "1"); (1%nat, u "2000")]
  /\ search time_re (u "2000년 1월 1일 오전 9시 5분")
     = Some [(3%nat, u "5"); (2%nat, u "9"); (1%nat, u "오전")]
  /\ exists r y mv dv hour minute,
       parse_and_store_user_info offline (u "2000년 1월 1일 오전 9시 5분") []
       = Some r
       /\ group 1 [(3%nat, u "1"); (2%nat, u "1"); (1%nat, u "2000")]
          = Some y
       /\ dict_get (u "datetime") r = Some (iso_text y mv dv hour minute)
       /\ minute < 100
       /\ (group 3 [(3%nat, u "5"); (2%nat, u "9"); (1%nat, u "오전")] = None
           -> minute = 0)
       /\ (forall mm,
             group 3 [(3%nat, u "5"); (2%nat, u "9"); (1%nat, u "오전")]
             = Some mm -> int mm = Some minute).
Proof.
  split; [vm_compute; reflexivity|].
  split; [vm_compute; reflexivity|].
  apply (committed_minute_rule offline (u "2000년 1월 1일 오전 9시 5분") []
           [(3%nat, u "1"); (2%nat, u "1"); (1%nat, u "2000")]
           [(3%nat, u "5"); (2%nat, u "9"); (1%nat, u "오전")]);
    vm_compute; reflexivity.
Defined.

(** *** The relative date *)

(** X19.  When the lower-cased message names 금요일 and none of 오늘, 내일,
    모레, the relative date is the clock's date between zero and six days
    ahead, and that day is a Friday: on a Friday it is today. *)
Theorem friday_is_this_week (w : World) (text : str) :
  py_in (u "오늘") (py_lower w text) = false ->
  py_in (u "내일") (py_lower w text) = false ->
  py_in (u "모레") (py_lower w text) = false ->
  py_in (u "금요일") (py_lower w text) = true ->
  exists n : Z,
    resolve_gochra_datetime w text = clock_iso w n
    /\ (0 <= n <= 6)%Z
    /\ ((clock_weekday w + n) mod 7 = 4)%Z
    /\ (clock_weekday w = 4%Z -> n = 0%Z).
Proof.
  intros H1 H2 H3 H4. unfold resolve_gochra_datetime. cbv zeta.
  rewrite H1, H2, H3, H4.
  exists ((4 - clock_weekday w) mod 7)%Z.
  split; [reflexivity|].
  split; [pose proof (Z.mod_pos_bound (4 - clock_weekday w) 7); lia|].
  split.
  - rewrite Z.add_mod_idemp_r by lia.
    replace (clock_weekday w + (4 - clock_weekday w))%Z with 4%Z by lia.
    reflexivity.
  - intros ->. reflexivity.
Qed.

Lemma friday_is_this_week_witness :
  py_in (u "오늘") (py_lower offline (u "금요일 운세")) = false
  /\ py_in (u "내일") (py_lower offline (u "금요일 운세")) = false
  /\ py_in (u "모레") (py_lower offline (u "금요일 운세")) = false
  /\ py_in (u "금요일") (py_lower offline (u "금요일 운세")) = true
  /\ exists n : Z,
       resolve_gochra_datetime offline (u "금요일 운세") = clock_iso offline n
       /\ (0 <= n <= 6)%Z
       /\ ((clock_weekday offline + n) mod 7 = 4)%Z
       /\ (clock_weekday offline = 4%Z -> n = 0%Z).
Proof.
  split; [vm_compute; reflexivity|]. split; [vm_compute; reflexivity|].
  split; [vm_compute; reflexivity|]. split; [vm_compute; reflexivity|].
  apply (friday_is_this_week offline (u "금요일 운세"));
    vm_compute; reflexivity.
Defined.

(** *** Rendering in chunks *)

Lemma drop_while_length (f : N -> bool) (s : str) :
  (length (drop_while f s) <= length s)%nat.
Proof.
  induction s as [|c s IH]; simpl; [lia|].
  destruct (f c); simpl; lia.
Qed.

Lemma strip_length (s : str) : (length (strip s) <= length s)%nat.
Proof.
  unfold strip, rstrip, lstrip. rewrite length_rev.
  pose proof (drop_while_length is_space (rev (drop_while is_space s))).
  pose proof (drop_while_length is_space s).
  rewrite length_rev in *. lia.
Qed.

Lemma drop_while_none (f : N -> bool) (s : str) :
  forallb (fun c => negb (f c)) s = true -> drop_while f s = s.
Proof.
  destruct s as [|c s]; [reflexivity|].
  cbn [forallb drop_while]. intros H.
  apply andb_true_iff in H as [H _].
  destruct (f c); [discriminate H|reflexivity].
Qed.

Lemma strip_no_space (s : str) :
  forallb (fun c => negb (is_space c)) s = true -> strip s = s.
Proof.
  intros H. unfold strip, rstrip, lstrip.
  rewrite (drop_while_none is_space s H).
  rewrite drop_while_none; [apply rev_involutive|].
  rewrite forallb_forall in *. intros c Hc. apply H.
  apply in_rev. exact Hc.
Qed.

Lemma forallb_firstn (f : N -> bool) (n : nat) (s : str) :
  forallb f s = true -> forallb f (firstn n s) = true.
Proof.
  revert s. induction n as [|n IH]; intros [|c s] H; try reflexivity.
  cbn [firstn forallb] in *. apply andb_true_iff in H as [Hc Hs].
  rewrite Hc, (IH s Hs). reflexivity.
Qed.

Lemma forallb_skipn (f : N -> bool) (n : nat) (s : str) :
  forallb f s = true -> forallb f (skipn n s) = true.
Proof.
  revert s. induction n as [|n IH]; intros [|c s] H; try exact H.
  cbn [skipn forallb] in *. apply andb_true_iff in H as [_ Hs].
  apply IH, Hs.
Qed.

Lemma range_chunks (t : str) (n : nat) (g : str -> str) :
  (0 < n)%nat ->
  (forall i, g (slice i (i + n) t) = slice i (i + n) t) ->
  forall fuel start,
    (length t - start <= fuel)%nat ->
    concat (map (fun i => g (slice i (i + n) t))
              (range_from fuel start (length t) n))
    = skipn start t.
Proof.
  intros Hn Hg fuel. induction fuel as [|fuel IH]; intros start Hf.
  - cbn [range_from map concat]. symmetry. apply skipn_all2. lia.
  - cbn [range_from]. destruct (Nat.ltb start (length t)) eqn:E.
    + cbn [map concat]. rewrite IH by (apply Nat.ltb_lt in E; lia).
      rewrite Hg. unfold slice.
      replace (start + n - start)%nat with n by lia.
      rewrite Nat.add_comm, <- skipn_skipn. apply firstn_skipn.
    + apply Nat.ltb_ge in E. cbn [map concat]. symmetry.
      apply skipn_all2. exact E.
Qed.

(** X20.  [render_fortune_markdown] sends nothing for a blank text and
    raises for a chunk size of zero on any other text; for a positive
    chunk size every message it sends is from 운세봇 and has at most
    [chunk_size] characters, and when the stripped text has no blank at
    all the messages put end to end are the stripped text. *)
Theorem render_fortune_markdown_chunks (text : str) (n : nat) :
  (strip text = [] ->
   forall z, render_fortune_markdown text z = Some [])
  /\ (strip text <> [] -> render_fortune_markdown text 0 = None)
  /\ ((0 < n)%nat ->
      exists msgs,
        render_fortune_markdown text (Z.of_nat n) = Some msgs
        /\ Forall (fun m => fst m = u "운세봇"
                            /\ (length (snd m) <= n)%nat) msgs
        /\ (forallb (fun c => negb (is_space c)) (strip text) = true ->
            concat (map snd msgs) = strip text)).
Proof.
  unfold render_fortune_markdown. cbv zeta.
  split; [intros -> z; reflexivity|].
  split; [destruct (strip text); [congruence|reflexivity]|].
  intros Hn. destruct (strip text) as [|c t] eqn:Et.
  - exists []. split; [reflexivity|]. split; [constructor|reflexivity].
  - assert (Ez : (Z.of_nat n =? 0)%Z = false) by (apply Z.eqb_neq; lia).
    assert (El : (Z.of_nat n <? 0)%Z = false) by (apply Z.ltb_ge; lia).
    rewrite Ez, El, Nat2Z.id. eexists. split; [reflexivity|].
    split.
    + apply Forall_forall. intros m Hm.
      rewrite map_map in Hm. apply in_map_iff in Hm as (i & <- & _).
      cbn [fst snd]. split; [reflexivity|].
      pose proof (strip_length (slice i (i + n) (c :: t))) as Hs.
      unfold slice in *. rewrite length_firstn in Hs. lia.
    + intros Hns. rewrite !map_map. cbn [snd]. unfold range_step.
      rewrite (range_chunks (c :: t) n strip Hn).
      * reflexivity.
      * intros i. apply strip_no_space. unfold slice.
        apply forallb_firstn, forallb_skipn, Hns.
      * lia.
Qed.

Lemma render_fortune_markdown_chunks_witness :
  (0 < 3)%nat
  /\ exists msgs,
       render_fortune_markdown (u " 오늘은좋은날 ") (Z.of_nat 3) = Some msgs
       /\ Forall (fun m => fst m = u "운세봇"
                           /\ (length (snd m) <= 3)%nat) msgs
       /\ (forallb (fun c => negb (is_space c)) (strip (u " 오늘은좋은날 "))
           = true ->
           concat (map snd msgs) = strip (u " 오늘은좋은날 ")).
Proof.
  split; [lia|].
  apply (proj2 (proj2 (render_fortune_markdown_chunks
                         (u " 오늘은좋은날 ") 3))).
  lia.
Defined.

(** *** Exceptions that leave a turn *)

(** X21.  A turn ends by an uncaught exception only when the language
    model raised or the astrology request raised something other than a
    request exception: extraction, merge and validation never raise. *)
Theorem uncaught_only_from_backends (w : World) (content : str)
    (s : user_session) :
  raised (snd (handle w content s)) = true ->
  (exists msgs e, llm_invoke w msgs = LlmException e)
  \/ (exists payload, astro_post w payload = ApiOtherException).
Proof.
  handle_cases; cbn [snd raised]; intros H; try discriminate H;
    try (left; eexists _, _; eassumption);
    try match goal with
        | K : check_missing_fields _ = None |- _ =>
            rewrite missing_prompts in K; discriminate K
        end;
    try match goal with
        | K : parse_and_store_user_info ?a ?b ?c = None |- _ =>
            destruct (parse_spec a b c) as (r & E & _);
            rewrite E in K; discriminate K
        end.
  all: right; unfold proceed_with_astrology in H; cbv zeta in H;
    match type of H with
    | context [call_astrology_api ?a ?b] =>
        destruct (call_astrology_api a b) as [t|] eqn:Ec;
        [destruct (llm_invoke a _); discriminate H|];
        unfold call_astrology_api in Ec; exists b;
        destruct (astro_post a b); try discriminate Ec; reflexivity
    end.
Qed.

Lemma uncaught_only_from_backends_witness :
  raised (snd (handle llm_down (u "안녕하세요") opened)) = true
  /\ ((exists msgs e, llm_invoke llm_down msgs = LlmException e)
      \/ (exists payload, astro_post llm_down payload = ApiOtherException)).
Proof.
  split; [vm_compute; reflexivity|].
  apply (uncaught_only_from_backends llm_down (u "안녕하세요") opened).
  vm_compute. reflexivity.
Defined.
